(** * Selector resolution and model-step execution of the workflow engine

    A shallow embedding of
    - [inference/enterprise/deployments/complier/steps_executors/utils.py]
      ([get_image], [resolve_parameter]),
    - [inference/enterprise/deployments/complier/steps_executors/models.py]
      ([run_roboflow_model_step], the request constructors, the table
      [MODEL_TYPE2REQUEST_CONSTRUCTOR], [run_ocr_model_step],
      [load_core_model]),
    - [inference/core/workflows/prototypes/block.py]
      (the class methods of [WorkflowBlockManifest]),
    followed by the properties proved about them. *)

From Stdlib Require Import Ascii String.
From stdpp Require Import gmap strings list fin_maps.

Set Warnings "-register-all".
Open Scope string_scope.

(** ** Python values *)

(** The values that travel through the engine: parameters, runtime inputs,
    step outputs and model responses.  [VDict] is a [dict] with [str] keys,
    [VModel] is a pydantic object (an inference response), given by its
    fields. *)
Inductive value : Type :=
| VNone
| VBool (b : bool)
| VInt (z : Z)
| VStr (s : string)
| VList (l : list value)
| VDict (d : gmap string value)
| VModel (d : gmap string value).

(** The exceptions the embedded code can raise.  [ExternalError] stands for
    whatever a collaborator (model manager, pydantic validation) raises. *)
Inductive exn : Type :=
| KeyError (key : string)
| TypeError
| AttributeError (attr : string)
| RuntimeError (msg : string)
| ExternalError (msg : string).

Inductive result (A : Type) : Type :=
| Ok (a : A)
| Raise (e : exn).
Arguments Ok {A} a.
Arguments Raise {A} e.

#[global] Instance result_ret : MRet result := fun A a => Ok a.
#[global] Instance result_bind : MBind result := fun A B f r =>
  match r with
  | Ok a => f a
  | Raise e => Raise e
  end.
#[global] Instance result_fmap : FMap result := fun A B f r =>
  match r with
  | Ok a => Ok (f a)
  | Raise e => Raise e
  end.

(** [issubclass(type(v), list)] *)
Definition is_list (v : value) : bool :=
  match v with
  | VList _ => true
  | _ => false
  end.

(** [d[k]] on a [Dict[str, Any]]: the entry, or [KeyError(k)]. *)
Definition dict_getitem {A : Type} (d : gmap string A) (k : string) : result A :=
  match d !! k with
  | Some v => Ok v
  | None => Raise (KeyError k)
  end.

(** [o[k]] with a [str] subscript on an arbitrary object: only a [dict]
    answers; lists and strings want integer subscripts and the other
    objects are not subscriptable, which is a [TypeError] in each case. *)
Definition getitem (o : value) (k : string) : result value :=
  match o with
  | VDict d => dict_getitem d k
  | _ => Raise TypeError
  end.

(** [o.dict()]: pydantic objects serialise to the [dict] of their fields;
    no other object has the method. *)
Definition dict_method (o : value) : result value :=
  match o with
  | VModel d => Ok (VDict d)
  | _ => Raise (AttributeError "dict")
  end.

(** Truth value of an object, as tested by [if api_key:]. *)
Definition truthy (v : value) : bool :=
  match v with
  | VNone => false
  | VBool b => b
  | VInt z => negb (z =? 0)%Z
  | VStr s => negb (String.eqb s "")
  | VList l => negb (Nat.eqb (length l) 0)
  | VDict d => negb (Nat.eqb (size d) 0)
  | VModel _ => true
  end.

(** ** Steps *)

(** A step definition: [type] and [name] are [str] fields of every step,
    [image] is a field of every step handed to [get_image]
    ([RoboflowModel], [OCRModel], [Crop]); the remaining fields differ per
    step class and are read by attribute name. *)
Record step : Type := {
  type : string;
  name : string;
  image : value;
  fields : gmap string value
}.

(** [step.attr] for the class-specific fields. *)
Definition getattr (s : step) (attr : string) : result value :=
  match fields s !! attr with
  | Some v => Ok v
  | None => Raise (AttributeError attr)
  end.

(** ** The selector helpers

    [inference/enterprise/deployments/complier/utils.py] and [is_selector]
    of [entities/steps.py] are not part of the sources at hand: the
    executors are embedded over their signatures. *)
Class SelectorGrammar : Type := {
  is_selector : value -> bool;
  is_input_selector : value -> bool;
  is_step_output_selector : value -> bool;
  get_step_selector_from_its_output : value -> result string;
  get_last_selector_chunk : value -> result string;
  construct_step_selector : string -> string
}.

(** What the executors rely on: references of both kinds are selectors, and
    no value is a reference of both kinds. *)
Class SelectorLaws (G : SelectorGrammar) : Prop := {
  input_selector_is_selector :
    forall v, is_input_selector v = true -> is_selector v = true;
  step_output_selector_is_selector :
    forall v, is_step_output_selector v = true -> is_selector v = true;
  input_selector_not_step_output :
    forall v, is_input_selector v = true -> is_step_output_selector v = false
}.

Section Resolution.
Context {G : SelectorGrammar}.

(** utils.py, [get_image] *)
Definition get_image (s : step)
    (runtime_parameters outputs_lookup : gmap string value) : result value :=
  if is_input_selector (image s) then
    chunk ← get_last_selector_chunk (image s);
    dict_getitem runtime_parameters chunk
  else if is_step_output_selector (image s) then
    step_selector ← get_step_selector_from_its_output (image s);
    step_output ← dict_getitem outputs_lookup step_selector;
    chunk ← get_last_selector_chunk (image s);
    getitem step_output chunk
  else Raise (RuntimeError "Cannot find image").

(** utils.py, [resolve_parameter] *)
Definition resolve_parameter (selector_or_value : value)
    (runtime_parameters outputs_lookup : gmap string value) : result value :=
  if negb (is_selector selector_or_value) then Ok selector_or_value
  else if is_step_output_selector selector_or_value then
    step_selector ← get_step_selector_from_its_output selector_or_value;
    step_output ← dict_getitem outputs_lookup step_selector;
    match step_output with
    | VList es =>
        VList <$> mapM (fun e =>
                          chunk ← get_last_selector_chunk selector_or_value;
                          getitem e chunk) es
    | _ =>
        chunk ← get_last_selector_chunk selector_or_value;
        getitem step_output chunk
    end
  else
    chunk ← get_last_selector_chunk selector_or_value;
    dict_getitem runtime_parameters chunk.

End Resolution.

(** ** Collaborators and the execution state *)

(** An inference request object: its class and its fields. *)
Record request : Type := {
  request_class : string;
  request_fields : gmap string value
}.

(** [request.attr] *)
Definition request_getattr (r : request) (attr : string) : result value :=
  match request_fields r !! attr with
  | Some v => Ok v
  | None => Raise (AttributeError attr)
  end.

(** [request.attr = v] *)
Definition request_setattr (r : request) (attr : string) (v : value) : request :=
  {| request_class := request_class r;
     request_fields := <[attr := v]> (request_fields r) |}.

(** The external collaborators of the executors: the [ModelManager]
    ([add_model], [infer_from_request], both stateful and fallible), the
    construction of a request object of a given class from keyword
    arguments (pydantic fills the defaults and validates), and the string
    formatting of a value inside an f-string. *)
Class Collaborators : Type := {
  manager : Type;
  add_model : value -> value -> manager -> result unit * manager;
  infer_from_request : value -> request -> manager -> result value * manager;
  new_request : string -> list (string * value) -> result request;
  format : value -> string
}.

(** The calls made on the model manager, in the order they were made; an
    inference call is recorded with what it answered. *)
Inductive call : Type :=
| AddModel (model_id api_key : value)
| InferFromRequest (model_id : value) (req : request) (outcome : result value).

Section Execution.
Context {G : SelectorGrammar} {C : Collaborators}.

(** The mutable objects the executors work on: the [outputs_lookup] dict,
    the model manager, and the record of the calls made on it. *)
Record state : Type := {
  outputs_lookup : gmap string value;
  model_manager : manager;
  calls : list call
}.

(** A computation may raise; the mutations made before that persist. *)
Definition exec (A : Type) : Type := state -> result A * state.

#[global] Instance exec_ret : MRet exec := fun A a st => (Ok a, st).
#[global] Instance exec_bind : MBind exec := fun A B f m st =>
  match m st with
  | (Ok a, st') => f a st'
  | (Raise e, st') => (Raise e, st')
  end.

(** A computation that only reads the lookup. *)
Definition reading {A : Type} (r : gmap string value -> result A) : exec A :=
  fun st => (r (outputs_lookup st), st).

(** [model_manager.add_model(model_id, api_key)] *)
Definition call_add_model (model_id api_key : value) : exec unit :=
  fun st =>
    let '(r, m) := add_model model_id api_key (model_manager st) in
    (r, {| outputs_lookup := outputs_lookup st;
           model_manager := m;
           calls := calls st ++ [AddModel model_id api_key] |}).

(** [await model_manager.infer_from_request(model_id, request)] *)
Definition call_infer_from_request (model_id : value) (req : request)
    : exec value :=
  fun st =>
    let '(r, m) := infer_from_request model_id req (model_manager st) in
    (r, {| outputs_lookup := outputs_lookup st;
           model_manager := m;
           calls := calls st ++ [InferFromRequest model_id req r] |}).

(** [outputs_lookup[key] = v] *)
Definition setitem (key : string) (v : value) : exec unit :=
  fun st =>
    (Ok tt, {| outputs_lookup := <[key := v]> (outputs_lookup st);
               model_manager := model_manager st;
               calls := calls st |}).

(** [resolve(step.attr)], with [resolve] the partial application of
    [resolve_parameter] built in each request constructor. *)
Definition resolve (runtime_parameters outputs_lookup : gmap string value)
    (s : step) (attr : string) : result value :=
  v ← getattr s attr;
  resolve_parameter v runtime_parameters outputs_lookup.

Definition request_constructor : Type :=
  step -> value -> value -> gmap string value -> gmap string value ->
  result request.

(** models.py, [construct_classification_request] *)
Definition construct_classification_request : request_constructor :=
  fun s image api_key runtime_parameters outputs_lookup =>
    let resolve := resolve runtime_parameters outputs_lookup s in
    model_id ← resolve "model_id";
    confidence ← resolve "confidence";
    disable_active_learning ← resolve "disable_active_learning";
    new_request "ClassificationInferenceRequest"
      [("api_key", api_key); ("model_id", model_id); ("image", image);
       ("confidence", confidence);
       ("disable_active_learning", disable_active_learning)].

(** models.py, [construct_object_detection_request] *)
Definition construct_object_detection_request : request_constructor :=
  fun s image api_key runtime_parameters outputs_lookup =>
    let resolve := resolve runtime_parameters outputs_lookup s in
    model_id ← resolve "model_id";
    class_agnostic_nms ← resolve "class_agnostic_nms";
    class_filter ← resolve "class_filter";
    confidence ← resolve "confidence";
    iou_threshold ← resolve "iou_threshold";
    max_detections ← resolve "max_detections";
    new_request "ObjectDetectionInferenceRequest"
      [("api_key", api_key); ("model_id", model_id); ("image", image);
       ("class_agnostic_nms", class_agnostic_nms);
       ("class_filter", class_filter); ("confidence", confidence);
       ("iou_threshold", iou_threshold); ("max_detections", max_detections)].

(** models.py, [construct_instance_segmentation_request] *)
Definition construct_instance_segmentation_request : request_constructor :=
  fun s image api_key runtime_parameters outputs_lookup =>
    let resolve := resolve runtime_parameters outputs_lookup s in
    model_id ← resolve "model_id";
    class_agnostic_nms ← resolve "class_agnostic_nms";
    class_filter ← resolve "class_filter";
    confidence ← resolve "confidence";
    iou_threshold ← resolve "iou_threshold";
    max_detections ← resolve "max_detections";
    mask_decode_mode ← resolve "mask_decode_mode";
    tradeoff_factor ← resolve "tradeoff_factor";
    new_request "InstanceSegmentationInferenceRequest"
      [("api_key", api_key); ("model_id", model_id); ("image", image);
       ("class_agnostic_nms", class_agnostic_nms);
       ("class_filter", class_filter); ("confidence", confidence);
       ("iou_threshold", iou_threshold); ("max_detections", max_detections);
       ("mask_decode_mode", mask_decode_mode);
       ("tradeoff_factor", tradeoff_factor)].

(** models.py, [construct_keypoints_detection_request] *)
Definition construct_keypoints_detection_request : request_constructor :=
  fun s image api_key runtime_parameters outputs_lookup =>
    let resolve := resolve runtime_parameters outputs_lookup s in
    model_id ← resolve "model_id";
    class_agnostic_nms ← resolve "class_agnostic_nms";
    class_filter ← resolve "class_filter";
    confidence ← resolve "confidence";
    iou_threshold ← resolve "iou_threshold";
    max_detections ← resolve "max_detections";
    keypoint_confidence ← resolve "keypoint_confidence";
    new_request "KeypointsDetectionInferenceRequest"
      [("api_key", api_key); ("model_id", model_id); ("image", image);
       ("class_agnostic_nms", class_agnostic_nms);
       ("class_filter", class_filter); ("confidence", confidence);
       ("iou_threshold", iou_threshold); ("max_detections", max_detections);
       ("keypoint_confidence", keypoint_confidence)].

(** models.py, [MODEL_TYPE2REQUEST_CONSTRUCTOR] *)
Definition MODEL_TYPE2REQUEST_CONSTRUCTOR : gmap string request_constructor :=
  list_to_map
    [("ClassificationModel", construct_classification_request);
     ("MultiLabelClassificationModel", construct_classification_request);
     ("ObjectDetectionModel", construct_object_detection_request);
     ("KeypointsDetectionModel", construct_keypoints_detection_request);
     ("InstanceSegmentationModel", construct_instance_segmentation_request)].

(** The serialisation of a raw inference result (models.py, lines 62-65):
    element by element for a list, [result.dict()] otherwise. *)
Definition serialise (raw : value) : result value :=
  match raw with
  | VList es => VList <$> mapM dict_method es
  | _ => dict_method raw
  end.

(** Lines 66-67: a list of length one is replaced by its element. *)
Definition unwrap_single (serialised_result : value) : value :=
  match serialised_result with
  | VList [e] => e
  | _ => serialised_result
  end.

(** models.py, [run_roboflow_model_step].  The returned pair is the
    next-step reference (the answer of the computation) and the mutated
    [outputs_lookup] (in the final state). *)
Definition run_roboflow_model_step (s : step)
    (runtime_parameters : gmap string value) (api_key : value)
    : exec (option string) :=
  model_id ← reading (fun outputs_lookup => resolve runtime_parameters outputs_lookup s "model_id");
  call_add_model model_id api_key;;
  image ← reading (get_image s runtime_parameters);
  request_constructor ← reading (fun _ =>
    dict_getitem MODEL_TYPE2REQUEST_CONSTRUCTOR (type s));
  request ← reading (request_constructor s image api_key runtime_parameters);
  raw ← call_infer_from_request model_id request;
  serialised_result ← reading (fun _ => serialise raw);
  setitem (construct_step_selector (name s)) (unwrap_single serialised_result);;
  mret None.

(** models.py, [load_core_model].  The request object is updated in place;
    the computation answers the model identifier together with the request
    as the function leaves it. *)
Definition load_core_model (inference_request : request)
    (core_model : string) (api_key : value) : exec (string * request) :=
  let inference_request :=
    if truthy api_key
    then request_setattr inference_request "api_key" api_key
    else inference_request in
  let version_id_field := core_model ++ "_version_id" in
  version_id ← reading (fun _ =>
    request_getattr inference_request version_id_field);
  let core_model_id := core_model ++ "/" ++ format version_id in
  request_api_key ← reading (fun _ =>
    request_getattr inference_request "api_key");
  call_add_model (VStr core_model_id) request_api_key;;
  mret (core_model_id, inference_request).

(** The body of the [for single_image in image] loop of
    [run_ocr_model_step], threading the list [serialised_result]. *)
Fixpoint ocr_loop (api_key : value) (images : list value)
    (serialised_result : list value) : exec (list value) :=
  match images with
  | [] => mret serialised_result
  | single_image :: images =>
      inference_request ← reading (fun _ =>
        new_request "DoctrOCRInferenceRequest" [("image", single_image)]);
      '(doctr_model_id, inference_request) ←
        load_core_model inference_request "doctr" api_key;
      raw ← call_infer_from_request (VStr doctr_model_id) inference_request;
      serialised ← reading (fun _ => dict_method raw);
      ocr_loop api_key images (serialised_result ++ [serialised])
  end.

(** Lines 189-190: [if not issubclass(type(image), list): image = [image]] *)
Definition as_batch (image : value) : list value :=
  match image with
  | VList images => images
  | _ => [image]
  end.

(** Lines 206-207, on the list built by the loop. *)
Definition unwrap_single_list (serialised_result : list value) : value :=
  match serialised_result with
  | [e] => e
  | _ => VList serialised_result
  end.

(** models.py, [run_ocr_model_step] *)
Definition run_ocr_model_step (s : step)
    (runtime_parameters : gmap string value) (api_key : value)
    : exec (option string) :=
  image ← reading (get_image s runtime_parameters);
  serialised_result ← ocr_loop api_key (as_batch image) [];
  setitem (construct_step_selector (name s))
          (unwrap_single_list serialised_result);;
  mret None.

End Execution.

(** ** The manifest contract of a block (block.py)

    A manifest class deriving from [WorkflowBlockManifest] is given by the
    class methods it overrides; a method it does not override is the one
    inherited from the base class. *)
Record manifest_class : Type := {
  override_get_input_dimensionality_offsets : option (gmap string Z);
  override_get_dimensionality_reference_property : option (option string);
  override_get_output_dimensionality_offset : option Z;
  override_accepts_batch_input : option bool;
  override_accepts_empty_values : option bool
}.

Module WorkflowBlockManifest.
(** The bodies of the class methods of the base class. *)
Definition get_input_dimensionality_offsets : gmap string Z := ∅.
Definition get_dimensionality_reference_property : option string := None.
Definition get_output_dimensionality_offset : Z := 0.
Definition accepts_batch_input : bool := false.
Definition accepts_empty_values : bool := false.
End WorkflowBlockManifest.

(** [cls.method()], resolved along the class hierarchy. *)
Definition get_input_dimensionality_offsets (cls : manifest_class)
    : gmap string Z :=
  default WorkflowBlockManifest.get_input_dimensionality_offsets
          (override_get_input_dimensionality_offsets cls).

Definition get_dimensionality_reference_property (cls : manifest_class)
    : option string :=
  default WorkflowBlockManifest.get_dimensionality_reference_property
          (override_get_dimensionality_reference_property cls).

Definition get_output_dimensionality_offset (cls : manifest_class) : Z :=
  default WorkflowBlockManifest.get_output_dimensionality_offset
          (override_get_output_dimensionality_offset cls).

Definition accepts_batch_input (cls : manifest_class) : bool :=
  default WorkflowBlockManifest.accepts_batch_input
          (override_accepts_batch_input cls).

Definition accepts_empty_values (cls : manifest_class) : bool :=
  default WorkflowBlockManifest.accepts_empty_values
          (override_accepts_empty_values cls).

(** ** Building a step *)

Section Construction.
Context {G : SelectorGrammar} {C : Collaborators}.

(** Modelled from the spec: the construction of a [RoboflowModel] step,
    which is code of [entities/steps.py], missing from the sources.  The
    spec has a step whose type is not present in the request-constructor
    dispatch table rejected when the step is built, as a fatal configuration
    error (its [UnsupportedStepTypeError]); a step of a registered type is
    built from its type, its name, its image and its remaining fields.
    Building a step involves neither the lookup nor the model manager. *)
Definition RoboflowModel (step_type step_name : string) (step_image : value)
    (step_fields : gmap string value) : result step :=
  match MODEL_TYPE2REQUEST_CONSTRUCTOR !! step_type with
  | Some _ =>
      Ok {| type := step_type; name := step_name; image := step_image;
            fields := step_fields |}
  | None => Raise (ExternalError "UnsupportedStepTypeError")
  end.

End Construction.

(** ** Successful invocations

    What it means for a step to reach the model and be answered; the
    properties below are stated over these relations. *)

Section Invocations.
Context {G : SelectorGrammar} {C : Collaborators}.

(** [run_roboflow_model_step] gets as far as the inference call, made for
    [model_id] with [req], and the call answers [raw], leaving the manager
    in [m2]. *)
Definition roboflow_invocation (s : step) (rp : gmap string value)
    (key : value) (st : state) (model_id : value) (req : request)
    (raw : value) (m2 : manager) : Prop :=
  exists (m1 : manager) (img : value) (ctor : request_constructor),
    resolve rp (outputs_lookup st) s "model_id" = Ok model_id /\
    add_model model_id key (model_manager st) = (Ok tt, m1) /\
    get_image s rp (outputs_lookup st) = Ok img /\
    MODEL_TYPE2REQUEST_CONSTRUCTOR !! type s = Some ctor /\
    ctor s img key rp (outputs_lookup st) = Ok req /\
    infer_from_request model_id req m1 = (Ok raw, m2).

(** The state [run_roboflow_model_step] ends in after such an invocation,
    [v] being what it stores. *)
Definition roboflow_final (s : step) (key : value) (st : state)
    (model_id : value) (req : request) (raw : value) (m2 : manager)
    (v : value) : state :=
  {| outputs_lookup := <[construct_step_selector (name s) := v]> (outputs_lookup st);
     model_manager := m2;
     calls := calls st ++ [AddModel model_id key;
                           InferFromRequest model_id req (Ok raw)] |}.

(** One turn of the loop of [run_ocr_model_step] on [img], from the manager
    [m], up to the answer [raw] of the inference call: the request is built,
    the core model is loaded, the call is made; [cs] are the calls made and
    [m'] is the manager afterwards. *)
Definition ocr_call (key : value) (img : value) (m : manager)
    (cs : list call) (raw : value) (m' : manager) : Prop :=
  exists (req0 : request) (version rkey : value) (m1 : manager),
    let req := if truthy key then request_setattr req0 "api_key" key
               else req0 in
    let model_id := VStr ("doctr" ++ "/" ++ format version) in
    new_request "DoctrOCRInferenceRequest" [("image", img)] = Ok req0 /\
    request_getattr req "doctr_version_id" = Ok version /\
    request_getattr req "api_key" = Ok rkey /\
    add_model model_id rkey m = (Ok tt, m1) /\
    infer_from_request model_id req m1 = (Ok raw, m') /\
    cs = [AddModel model_id rkey; InferFromRequest model_id req (Ok raw)].

(** Such a turn in which the call answers a response object of fields [d]. *)
Definition ocr_invocation (key : value) (img : value) (m : manager)
    (cs : list call) (d : gmap string value) (m' : manager) : Prop :=
  ocr_call key img m cs (VModel d) m'.

(** The turns of the loop over a list of images, one after the other. *)
Inductive ocr_invocations (key : value)
    : list value -> manager -> list call -> list (gmap string value) ->
      manager -> Prop :=
| ocr_invocations_nil (m : manager) :
    ocr_invocations key [] m [] [] m
| ocr_invocations_cons img imgs m cs d m1 css ds m' :
    ocr_invocation key img m cs d m1 ->
    ocr_invocations key imgs m1 css ds m' ->
    ocr_invocations key (img :: imgs) m (cs ++ css) (d :: ds) m'.

End Invocations.

(** The answers of the inference calls among [cs], in call order. *)
Definition inference_outcomes (cs : list call) : list (result value) :=
  omap (fun c => match c with
                 | InferFromRequest _ _ outcome => Some outcome
                 | AddModel _ _ => None
                 end) cs.

(** ** Shapes of call records and of stored results *)

(** The calls come as registrations each followed by the inference call on
    the model just registered, except that the last registration may stand
    alone. *)
Inductive registered_before_inference : list call -> Prop :=
| registered_nil :
    registered_before_inference []
| registered_alone (model_id api_key : value) :
    registered_before_inference [AddModel model_id api_key]
| registered_then_inferred (model_id api_key : value) (req : request)
    (outcome : result value) (cs : list call) :
    registered_before_inference cs ->
    registered_before_inference
      (AddModel model_id api_key :: InferFromRequest model_id req outcome :: cs).

(** A record, or a list of records that has not exactly one element. *)
Definition record_or_records (v : value) : Prop :=
  (exists d : gmap string value, v = VDict d) \/
  (exists ds : list (gmap string value),
     v = VList (VDict <$> ds) /\ length ds <> 1).

(** ** ONNX execution providers (core/models/utils/onnx.py) *)

(** An entry of the provider list: a bare name, or a tuple of a name and
    its options. *)
Inductive provider : Type :=
| ProviderName (name : string)
| ProviderTuple (name : string) (options : gmap string value).

(** onnx.py, [has_trt] *)
Fixpoint has_trt (providers : list provider) : bool :=
  match providers with
  | [] => false
  | p :: providers =>
      let name := match p with
                  | ProviderTuple name _ => name
                  | ProviderName name => name
                  end in
      if String.eqb name "TensorrtExecutionProvider" then true
      else has_trt providers
  end.

(** ** A concrete selector syntax and concrete collaborators

    The properties are proved for every [SelectorGrammar] and every
    [Collaborators]; these instances serve to run the executors on
    examples. *)

Module CompilerUtils.

(** [s.split(sep)] *)
Fixpoint split (sep : Ascii.ascii) (s : string) : list string :=
  match s with
  | EmptyString => [EmptyString]
  | String c s' =>
      if Ascii.eqb c sep then EmptyString :: split sep s'
      else match split sep s' with
           | chunk :: chunks => String c chunk :: chunks
           | [] => [String c EmptyString]
           end
  end.

(** Modelled from the spec: [is_selector] of [entities/steps.py], missing
    from the sources.  A selector is a string tagged by the prefix [$]. *)
Definition is_selector (v : value) : bool :=
  match v with
  | VStr s => String.prefix "$" s
  | _ => false
  end.

(** Modelled from the spec: [is_input_selector] of [complier/utils.py],
    missing from the sources.  [$inputs.<name>] refers to the workflow input
    [<name>]. *)
Definition is_input_selector (v : value) : bool :=
  is_selector v &&
  match v with
  | VStr s => String.prefix "$inputs." s
              && Nat.eqb (length (split "."%char s)) 2
  | _ => false
  end.

(** Modelled from the spec: [is_step_output_selector] of
    [complier/utils.py], missing from the sources.
    [$steps.<step>.<field>] refers to the field [<field>] of the output of
    the step [<step>]. *)
Definition is_step_output_selector (v : value) : bool :=
  is_selector v &&
  match v with
  | VStr s => String.prefix "$steps." s
              && Nat.eqb (length (split "."%char s)) 3
  | _ => false
  end.

(** Modelled from the spec: [get_step_selector_from_its_output] of
    [complier/utils.py], missing from the sources: the step part
    [$steps.<step>] of [$steps.<step>.<field>]. *)
Definition get_step_selector_from_its_output (v : value) : result string :=
  match v with
  | VStr s => Ok (String.concat "." (take 2 (split "."%char s)))
  | _ => Raise (AttributeError "split")
  end.

(** Modelled from the spec: [get_last_selector_chunk] of
    [complier/utils.py], missing from the sources: the input name of an
    input selector, the field name of a step-output selector. *)
Definition get_last_selector_chunk (v : value) : result string :=
  match v with
  | VStr s => Ok (List.last (split "."%char s) "")
  | _ => Raise (AttributeError "split")
  end.

(** Modelled from the spec: [construct_step_selector] of
    [complier/utils.py], missing from the sources: the identifier
    [$steps.<name>] under which the step [<name>] is entered in the lookup. *)
Definition construct_step_selector (step_name : string) : string :=
  "$steps." ++ step_name.

End CompilerUtils.

#[global] Instance compiler_utils : SelectorGrammar := {|
  is_selector := CompilerUtils.is_selector;
  is_input_selector := CompilerUtils.is_input_selector;
  is_step_output_selector := CompilerUtils.is_step_output_selector;
  get_step_selector_from_its_output :=
    CompilerUtils.get_step_selector_from_its_output;
  get_last_selector_chunk := CompilerUtils.get_last_selector_chunk;
  construct_step_selector := CompilerUtils.construct_step_selector
|}.

Module Stub.

(** The default field values pydantic gives a request of class [cls]. *)
Definition defaults (cls : string) : gmap string value :=
  if String.eqb cls "DoctrOCRInferenceRequest"
  then list_to_map [("api_key", VNone); ("doctr_version_id", VStr "default")]
  else ∅.

Definition make_request (cls : string) (kwargs : list (string * value))
    : result request :=
  Ok {| request_class := cls;
        request_fields := list_to_map kwargs ∪ defaults cls |}.

Definition to_string (v : value) : string :=
  match v with
  | VStr s => s
  | VNone => "None"
  | VBool true => "True"
  | VBool false => "False"
  | _ => "<object>"
  end.

(** A response object carrying the image it was computed from. *)
Definition response (img : value) : value :=
  VModel (<["source" := img]> (<["predictions" := VList []]> ∅)).

(** The answer of a model that accepts batches: one response per image for
    a list of images, a single response otherwise. *)
Definition batched (loaded : nat) (model_id : value) (req : request)
    : result value :=
  match request_fields req !! "image" with
  | Some (VList imgs) => Ok (VList (response <$> imgs))
  | Some img => Ok (response img)
  | None => Raise (ExternalError "no image")
  end.

(** The answer of a model whose response tells how many models the manager
    had been asked to load when it was computed. *)
Definition numbered (loaded : nat) (model_id : value) (req : request)
    : result value :=
  Ok (VModel (<["loaded" := VInt (Z.of_nat loaded)]> ∅)).

(** A model manager that counts the models it was asked to load and
    answers every inference request by [answer]. *)
Definition collaborators (answer : nat -> value -> request -> result value)
    : Collaborators := {|
  manager := nat;
  add_model := fun _ _ loaded => (Ok tt, S loaded);
  infer_from_request := fun model_id req loaded =>
    (answer loaded model_id req, loaded);
  new_request := make_request;
  format := to_string
|}.

End Stub.

Module Examples.

Definition api_key : value := VStr "secret".

Definition detection : step := {|
  type := "ObjectDetectionModel";
  name := "detection";
  image := VStr "$inputs.image";
  fields := list_to_map
    [("model_id", VStr "$inputs.model_id");
     ("class_agnostic_nms", VBool false);
     ("class_filter", VNone);
     ("confidence", VStr "$inputs.confidence");
     ("iou_threshold", VInt 1);
     ("max_detections", VInt 300)]
|}.

Definition ocr : step := {|
  type := "OCRModel";
  name := "ocr";
  image := VStr "$inputs.image";
  fields := ∅
|}.

(** A step whose type has no request constructor. *)
Definition unregistered : step := {|
  type := "YoloWorldModel";
  name := "world";
  image := VStr "$inputs.image";
  fields := list_to_map [("model_id", VStr "$inputs.model_id")]
|}.

(** A step whose image is given literally. *)
Definition literal_image : step := {|
  type := "OCRModel";
  name := "ocr";
  image := VStr "a.jpg";
  fields := ∅
|}.

Definition inputs (img : value) : gmap string value :=
  list_to_map [("image", img); ("model_id", VStr "yolov8n/1");
               ("confidence", VInt 1)].

Definition one_image : gmap string value := inputs (VStr "a.jpg").

Definition two_images : gmap string value :=
  inputs (VList [VStr "a.jpg"; VStr "b.jpg"]).

Definition snapshot (C : Collaborators) (lookup : gmap string value)
    (m : manager) (cs : list call) : state :=
  {| outputs_lookup := lookup; model_manager := m; calls := cs |}.

Definition start (C : Collaborators) (m : manager) : state :=
  snapshot C ∅ m [].

(** The request [run_roboflow_model_step] builds for [detection]. *)
Definition detection_request (img : value) : request :=
  {| request_class := "ObjectDetectionInferenceRequest";
     request_fields := list_to_map
       [("api_key", api_key); ("model_id", VStr "yolov8n/1"); ("image", img);
        ("class_agnostic_nms", VBool false); ("class_filter", VNone);
        ("confidence", VInt 1); ("iou_threshold", VInt 1);
        ("max_detections", VInt 300)] |}.

(** The request [run_ocr_model_step] sends for one image. *)
Definition ocr_request (img : value) : request :=
  {| request_class := "DoctrOCRInferenceRequest";
     request_fields := list_to_map
       [("image", img); ("api_key", api_key);
        ("doctr_version_id", VStr "default")] |}.

(** The calls of one turn of the OCR loop on [img], answered by [raw]. *)
Definition ocr_calls (img raw : value) : list call :=
  [AddModel (VStr "doctr/default") api_key;
   InferFromRequest (VStr "doctr/default") (ocr_request img) (Ok raw)].

(** The fields of [Stub.response img]. *)
Definition response_fields (img : value) : gmap string value :=
  <["source" := img]> (<["predictions" := VList []]> ∅).

(** A lookup in which the step [detection] has produced two records. *)
Definition two_records : gmap string value :=
  let records := [VDict (<["predictions" := VInt 1]> ∅);
                  VDict (<["predictions" := VInt 2]> ∅)] in
  <["$steps.detection" := VList records]> ∅.

(** A lookup in which the step [detection] has produced one record. *)
Definition one_record : gmap string value :=
  <["$steps.detection" := VDict (<["predictions" := VInt 7]> ∅)]> ∅.

(** The collaborators of the examples. *)
Definition batched : Collaborators := Stub.collaborators Stub.batched.
Definition numbered : Collaborators := Stub.collaborators Stub.numbered.

(** The state after [detection] was executed once with the model manager
    [numbered]. *)
Definition executed_once : @state numbered :=
  snd (run_roboflow_model_step (C := numbered) detection one_image api_key
         (start numbered 0)).

(** The state after [detection] was executed on one image with the model
    manager [batched]. *)
Definition detected : @state batched :=
  snd (run_roboflow_model_step (C := batched) detection one_image api_key
         (start batched 0)).

(** The fields of the [n]-th answer of [Stub.numbered]. *)
Definition numbered_fields (n : Z) : gmap string value :=
  <["loaded" := VInt n]> ∅.

(** A manifest class that overrides nothing. *)
Definition plain_manifest : manifest_class := {|
  override_get_input_dimensionality_offsets := None;
  override_get_dimensionality_reference_property := None;
  override_get_output_dimensionality_offset := None;
  override_accepts_batch_input := None;
  override_accepts_empty_values := None
|}.

End Examples.

Module Scenarios.

(** A step whose image is a field of the output of [detection]. *)
Definition reader : step := {|
  type := "OCRModel";
  name := "reader";
  image := VStr "$steps.detection.predictions";
  fields := ∅
|}.

(** A lookup in which the second of the three records produced by
    [detection] lacks the field [predictions]. *)
Definition ragged_records : gmap string value :=
  let records := [VDict (<["predictions" := VInt 1]> ∅);
                  VDict ∅;
                  VDict (<["predictions" := VInt 3]> ∅)] in
  <["$steps.detection" := VList records]> ∅.

(** A detection step whose model identifier refers to an input that is not
    supplied. *)
Definition unbound_model : step := {|
  type := "ObjectDetectionModel";
  name := "detection";
  image := VStr "$inputs.image";
  fields := list_to_map [("model_id", VStr "$inputs.missing")]
|}.

(** A detection step whose image is given literally. *)
Definition literal_detection : step := {|
  type := "ObjectDetectionModel";
  name := "detection";
  image := VStr "a.jpg";
  fields := list_to_map [("model_id", VStr "$inputs.model_id")]
|}.

(** Runtime inputs with an empty list of images. *)
Definition no_images : gmap string value := Examples.inputs (VList []).

(** A request as pydantic builds it for the OCR model, before any key is
    set on it. *)
Definition bare_ocr_request : request :=
  {| request_class := "DoctrOCRInferenceRequest";
     request_fields := list_to_map
       [("image", VStr "a.jpg"); ("api_key", VNone);
        ("doctr_version_id", VStr "default")] |}.

(** Two classification steps that differ in their type only. *)
Definition classifier (t : string) : step := {|
  type := t;
  name := "classes";
  image := VStr "$inputs.image";
  fields := list_to_map
    [("model_id", VStr "$inputs.model_id");
     ("confidence", VStr "$inputs.confidence");
     ("disable_active_learning", VBool true)]
|}.

End Scenarios.

(** * Properties *)

Open Scope list_scope.

Example split_step_output :
  CompilerUtils.split "."%char "$steps.detection.predictions"
  = ["$steps"; "detection"; "predictions"].
Proof. reflexivity. Qed.

Example step_selector_of_output :
  get_step_selector_from_its_output (VStr "$steps.detection.predictions")
  = Ok (construct_step_selector "detection").
Proof. reflexivity. Qed.

#[global] Instance compiler_utils_laws : SelectorLaws compiler_utils.
Proof.
  split; intros v; cbn;
    unfold CompilerUtils.is_input_selector, CompilerUtils.is_step_output_selector.
  - intros Hv. apply andb_prop in Hv. tauto.
  - intros Hv. apply andb_prop in Hv. tauto.
  - destruct v as [| | |s| | |]; cbn; try (intros; congruence).
    intros Hv. apply andb_prop in Hv as [_ Hv].
    apply andb_prop in Hv as [_ Hv]. apply Nat.eqb_eq in Hv.
    rewrite Hv. cbn. by rewrite !andb_false_r.
Qed.

(** ** The result monad *)

Lemma mapM_Ok {A B : Type} (f : A -> result B) (l : list A) (k : list B) :
  mapM f l = Ok k <-> Forall2 (fun x y => f x = Ok y) l k.
Proof.
  revert k. induction l as [|x l IH]; intros k; cbn.
  - split.
    + intros [= <-]. constructor.
    + intros Hk. by inversion Hk.
  - unfold mbind, result_bind.
    destruct (f x) as [y|e] eqn:Hfx.
    + destruct (mapM f l) as [k'|e] eqn:Hl.
      * split.
        -- intros [= <-]. constructor; [done|]. by apply IH.
        -- intros Hk. inversion Hk as [|? y' ? k'' Hy Htl]; subst.
           rewrite Hfx in Hy. injection Hy as ->.
           apply IH in Htl. by injection Htl as ->.
      * split; [done|].
        intros Hk. inversion Hk as [|? y' ? k'' Hy Htl]; subst.
        apply IH in Htl. done.
    + split; [done|].
      intros Hk. inversion Hk as [|? y' ? k'' Hy Htl]; subst. congruence.
Qed.

Lemma fmap_Ok {A B : Type} (f : A -> B) (r : result A) (b : B) :
  f <$> r = Ok b <-> exists a, r = Ok a /\ b = f a.
Proof.
  destruct r as [a|e]; cbn; split.
  - intros [= <-]. eauto.
  - intros (a' & [= <-] & ->). done.
  - done.
  - intros (a' & [=] & _).
Qed.

Section ResolutionProperties.
Context {G : SelectorGrammar} {L : SelectorLaws G}.

Lemma resolve_parameter_step_output sel k rp (ol : gmap string value) :
  is_step_output_selector sel = true ->
  get_step_selector_from_its_output sel = Ok k ->
  resolve_parameter sel rp ol =
    (step_output ← dict_getitem ol k;
     match step_output with
     | VList es =>
         VList <$> mapM (fun e => chunk ← get_last_selector_chunk sel;
                                  getitem e chunk) es
     | _ => chunk ← get_last_selector_chunk sel; getitem step_output chunk
     end).
Proof.
  intros Hso Hk. unfold resolve_parameter.
  rewrite (step_output_selector_is_selector _ Hso), Hso, Hk. done.
Qed.

(** C1.  For a step-output selector [sel] naming the step entry [k] and the
    field [f]: when the stored result of the step is a list [es], the
    resolved value is the list of the field accesses [e[f]] over [es], in
    the same order and of the same length (the resolution succeeds with a
    list [vs] exactly when every access succeeds, [vs] being the values
    read, position by position); when the stored result is a single record
    [d], the resolved value is [d[f]]. *)
Theorem resolve_parameter_batch_broadcast
    (sel : value) (k f : string) (rp ol : gmap string value) :
  is_step_output_selector sel = true ->
  get_step_selector_from_its_output sel = Ok k ->
  get_last_selector_chunk sel = Ok f ->
  (forall es : list value, ol !! k = Some (VList es) ->
     resolve_parameter sel rp ol = VList <$> mapM (fun e => getitem e f) es /\
     (forall vs : list value,
        resolve_parameter sel rp ol = Ok (VList vs) <->
        Forall2 (fun e v => getitem e f = Ok v) es vs) /\
     (forall v : value,
        resolve_parameter sel rp ol = Ok v ->
        exists vs, v = VList vs /\ length vs = length es /\
          forall (i : nat) (e : value), es !! i = Some e ->
            exists x, vs !! i = Some x /\ getitem e f = Ok x) /\
     (forall ds : list (gmap string value),
        es = VDict <$> ds ->
        Forall (fun d => is_Some (d !! f)) ds ->
        exists vs, resolve_parameter sel rp ol = Ok (VList vs) /\
          length vs = length ds /\
          forall (i : nat) (d : gmap string value),
            ds !! i = Some d -> vs !! i = d !! f)) /\
  (forall d : gmap string value, ol !! k = Some (VDict d) ->
     resolve_parameter sel rp ol = dict_getitem d f).
Proof.
  intros Hso Hk Hf.
  pose proof (resolve_parameter_step_output sel k rp ol Hso Hk) as Hres.
  rewrite Hf in Hres. unfold dict_getitem at 1 in Hres. split.
  - intros es Hes. rewrite Hes in Hres. cbn in Hres. rewrite !Hres.
    assert (Hiff : forall vs, VList <$> mapM (fun e => getitem e f) es
                              = Ok (VList vs)
                     <-> Forall2 (fun e v => getitem e f = Ok v) es vs).
    { intros vs. rewrite fmap_Ok. rewrite <- mapM_Ok. split.
      - intros (a & Ha & [= ->]). done.
      - intros Ha. eauto. }
    split; [done|]. split; [exact Hiff|]. split.
    + intros v Hv. apply fmap_Ok in Hv as (vs & Hvs & ->).
      apply mapM_Ok in Hvs. exists vs. split; [done|]. split.
      * symmetry. by eapply Forall2_length.
      * intros i e He.
        destruct (Forall2_lookup_l _ _ _ _ _ Hvs He) as (x & Hx & Hex). eauto.
    + intros ds -> Hds.
      assert (Hex : exists vs,
                 Forall2 (fun e v => getitem e f = Ok v) (VDict <$> ds) vs /\
                 length vs = length ds /\
                 forall i d, ds !! i = Some d -> vs !! i = d !! f).
      { clear Hiff Hes Hres. induction Hds as [|d ds [x Hx] _ IH].
        - exists []. split; [constructor|]. split; [done|]. intros i d [=].
        - destruct IH as (vs & Hvs & Hlen & Hnth).
          exists (x :: vs). split; [|split].
          + constructor; [|done]. cbn. unfold dict_getitem. by rewrite Hx.
          + cbn. by rewrite Hlen.
          + intros [|i] d' Hd'; cbn in *.
            * injection Hd' as <-. done.
            * by apply Hnth. }
      destruct Hex as (vs & Hvs & Hlen & Hnth).
      exists vs. split; [by apply Hiff|done].
  - intros d Hd. rewrite Hd in Hres. exact Hres.
Qed.

(** C2.  [resolve_parameter] returns a value that is not a selector as it
    is, whatever the runtime inputs and the lookup (so two calls on it agree),
    and returns for an input selector whose name is bound in the runtime
    inputs exactly the value bound there. *)
Theorem resolve_parameter_identity_on_non_references :
  (forall (v : value) (rp ol : gmap string value),
     is_selector v = false -> resolve_parameter v rp ol = Ok v) /\
  (forall (v : value) (rp ol rp' ol' : gmap string value),
     is_selector v = false ->
     resolve_parameter v rp ol = resolve_parameter v rp' ol') /\
  (forall (sel : value) (n : string) (x : value) (rp ol : gmap string value),
     is_input_selector sel = true ->
     get_last_selector_chunk sel = Ok n ->
     rp !! n = Some x ->
     resolve_parameter sel rp ol = Ok x).
Proof.
  assert (Hlit : forall v rp ol,
             is_selector v = false -> resolve_parameter v rp ol = Ok v).
  { intros v rp ol Hv. unfold resolve_parameter. by rewrite Hv. }
  split; [exact Hlit|]. split.
  - intros v rp ol rp' ol' Hv. by rewrite !Hlit.
  - intros sel n x rp ol Hin Hn Hx. unfold resolve_parameter.
    rewrite (input_selector_is_selector _ Hin),
      (input_selector_not_step_output _ Hin), Hn.
    cbn. unfold dict_getitem. by rewrite Hx.
Qed.

(** C6.  Resolving a step-output selector whose step entry [k] is absent
    from the lookup raises the key error carrying [k], in [resolve_parameter]
    and in [get_image] alike; neither ever answers a value there. *)
Theorem resolve_absent_step_fails
    (sel : value) (k : string) (rp ol : gmap string value) :
  is_step_output_selector sel = true ->
  get_step_selector_from_its_output sel = Ok k ->
  ol !! k = None ->
  resolve_parameter sel rp ol = Raise (KeyError k) /\
  (forall s : step, image s = sel -> get_image s rp ol = Raise (KeyError k)) /\
  (forall v : value, resolve_parameter sel rp ol <> Ok v) /\
  (forall (s : step) (v : value), image s = sel -> get_image s rp ol <> Ok v).
Proof.
  intros Hso Hk Habs.
  assert (Hres : resolve_parameter sel rp ol = Raise (KeyError k)).
  { rewrite (resolve_parameter_step_output sel k rp ol Hso Hk).
    unfold dict_getitem. by rewrite Habs. }
  assert (Himg : forall s, image s = sel ->
                           get_image s rp ol = Raise (KeyError k)).
  { intros s Hs. unfold get_image. rewrite Hs.
    destruct (is_input_selector sel) eqn:Hin.
    - apply input_selector_not_step_output in Hin. congruence.
    - rewrite Hso, Hk. cbn. unfold dict_getitem. by rewrite Habs. }
  split; [done|]. split; [done|]. split.
  - intros v. by rewrite Hres.
  - intros s v Hs. by rewrite (Himg s Hs).
Qed.

(** C9.  For a step whose image parameter is neither an input selector nor
    a step-output selector, [get_image] raises [RuntimeError]; where that
    parameter is not a selector at all, [resolve_parameter] would have
    answered the literal itself. *)
Theorem get_image_rejects_literals (s : step) (rp ol : gmap string value) :
  is_input_selector (image s) = false ->
  is_step_output_selector (image s) = false ->
  get_image s rp ol = Raise (RuntimeError "Cannot find image") /\
  (is_selector (image s) = false ->
   resolve_parameter (image s) rp ol = Ok (image s)).
Proof.
  intros Hin Hso. split.
  - unfold get_image. by rewrite Hin, Hso.
  - intros Hsel. unfold resolve_parameter. by rewrite Hsel.
Qed.

End ResolutionProperties.

(** C8.  A manifest class inherits, for each of the five class methods it
    does not override, the default of [WorkflowBlockManifest]: no
    dimensionality offset for any parameter (an empty map, so every offset
    read with default 0 is 0), no dimensionality reference property, output
    dimensionality offset 0, no batch input, no empty values. *)
Theorem manifest_defaults (cls : manifest_class) :
  (override_get_input_dimensionality_offsets cls = None ->
   get_input_dimensionality_offsets cls = ∅ /\
   forall p : string,
     get_input_dimensionality_offsets cls !! p = None /\
     default 0%Z (get_input_dimensionality_offsets cls !! p) = 0%Z) /\
  (override_get_dimensionality_reference_property cls = None ->
   get_dimensionality_reference_property cls = None) /\
  (override_get_output_dimensionality_offset cls = None ->
   get_output_dimensionality_offset cls = 0%Z) /\
  (override_accepts_batch_input cls = None ->
   accepts_batch_input cls = false) /\
  (override_accepts_empty_values cls = None ->
   accepts_empty_values cls = false).
Proof.
  unfold get_input_dimensionality_offsets,
    get_dimensionality_reference_property, get_output_dimensionality_offset,
    accepts_batch_input, accepts_empty_values.
  split; [|repeat split; by intros ->].
  intros ->. cbn. unfold WorkflowBlockManifest.get_input_dimensionality_offsets.
  split; [done|]. intros p. by rewrite lookup_empty.
Qed.

(** ** Executing the model steps *)

Lemma mapM_dict_method_Ok (rs svs : list value) :
  mapM dict_method rs = Ok svs <->
  exists ds : list (gmap string value), rs = VModel <$> ds /\ svs = VDict <$> ds.
Proof.
  rewrite mapM_Ok. split.
  - induction 1 as [|r sv rs svs Hr _ (ds & -> & ->)].
    + by exists [].
    + destruct r; try discriminate. injection Hr as <-.
      by exists (d :: ds).
  - intros (ds & -> & ->). induction ds; constructor; done.
Qed.

Lemma serialise_Ok (raw sv : value) :
  serialise raw = Ok sv <->
  (exists d, raw = VModel d /\ sv = VDict d) \/
  (exists ds, raw = VList (VModel <$> ds) /\ sv = VList (VDict <$> ds)).
Proof.
  destruct raw; cbn; try (split; [done|intros [(? & [=] & _)|(? & [=] & _)]]).
  - rewrite fmap_Ok. split.
    + intros (svs & Hsvs & ->). right.
      apply mapM_dict_method_Ok in Hsvs as (ds & -> & ->). eauto.
    + intros [(? & [=] & _)|(ds & [= ->] & ->)].
      exists (VDict <$> ds). split; [|done].
      apply mapM_dict_method_Ok. eauto.
  - split.
    + intros [= <-]. left. eauto.
    + intros [(? & [= <-] & ->)|(? & [=] & _)]. done.
Qed.

Section ExecutionProperties.
Context {G : SelectorGrammar} {C : Collaborators}.

#[local] Arguments MODEL_TYPE2REQUEST_CONSTRUCTOR : simpl never.
#[local] Arguments serialise : simpl never.
#[local] Arguments resolve : simpl never.
#[local] Arguments get_image : simpl never.
#[local] Arguments lookup : simpl never.
#[local] Arguments request_getattr : simpl never.
#[local] Arguments request_setattr : simpl never.
#[local] Arguments truthy : simpl never.
#[local] Arguments insert : simpl never.

Ltac run_exec :=
  unfold mbind, exec_bind, mret, exec_ret, reading, call_add_model,
    call_infer_from_request, setitem, dict_getitem.

Lemma run_roboflow_model_step_Ok s rp key st model_id req raw m2 sv :
  roboflow_invocation s rp key st model_id req raw m2 ->
  serialise raw = Ok sv ->
  run_roboflow_model_step s rp key st
  = (Ok None, roboflow_final s key st model_id req raw m2 (unwrap_single sv)).
Proof.
  intros (m1 & img & ctor & Hid & Hadd & Himg & Hctor & Hreq & Hinf) Hsv.
  unfold run_roboflow_model_step, roboflow_final. run_exec. cbn.
  rewrite Hid, Hadd. cbn. rewrite Himg, Hctor. cbn. rewrite Hreq, Hinf.
  cbn. rewrite Hsv. cbn. by rewrite <- app_assoc.
Qed.

Lemma run_roboflow_model_step_inv s rp key st r st' :
  run_roboflow_model_step s rp key st = (Ok r, st') ->
  exists model_id req raw m2 sv,
    roboflow_invocation s rp key st model_id req raw m2 /\
    serialise raw = Ok sv /\
    r = None /\
    st' = roboflow_final s key st model_id req raw m2 (unwrap_single sv).
Proof.
  unfold run_roboflow_model_step, roboflow_final, roboflow_invocation.
  run_exec. cbn.
  destruct (resolve rp (outputs_lookup st) s "model_id")
    as [model_id|] eqn:Hid; [|done].
  destruct (add_model model_id key (model_manager st)) as [[[]|] m1] eqn:Hadd;
    [|done]. cbn.
  destruct (get_image s rp (outputs_lookup st)) as [img|] eqn:Himg; [|done].
  destruct (MODEL_TYPE2REQUEST_CONSTRUCTOR !! type s) as [ctor|] eqn:Hctor;
    [|done]. cbn.
  destruct (ctor s img key rp (outputs_lookup st)) as [req|] eqn:Hreq; [|done].
  destruct (infer_from_request model_id req m1) as [[raw|] m2] eqn:Hinf;
    [|done]. cbn.
  destruct (serialise raw) as [sv|] eqn:Hsv; [|done]. cbn.
  intros [= <- <-].
  exists model_id, req, raw, m2, sv. rewrite <- app_assoc.
  split; [|done]. exists m1, img, ctor. done.
Qed.

Lemma ocr_loop_Ok key imgs m cs ds m' :
  ocr_invocations key imgs m cs ds m' ->
  forall (ol : gmap string value) (cs0 : list call) (acc : list value),
    ocr_loop key imgs acc
      {| outputs_lookup := ol; model_manager := m; calls := cs0 |}
    = (Ok (acc ++ (VDict <$> ds)),
       {| outputs_lookup := ol; model_manager := m'; calls := cs0 ++ cs |}).
Proof.
  induction 1 as [m|img imgs m cs d m1 css ds m' Hone _ IH]; intros ol cs0 acc.
  - cbn. by rewrite !app_nil_r.
  - destruct Hone as (req0 & version & rkey & m0 & Hone). cbn zeta in Hone.
    destruct Hone as (Hnew & Hver & Hkey & Hadd & Hinf & ->).
    cbn [ocr_loop]. unfold load_core_model. run_exec. cbn.
    rewrite Hnew. cbn.
    change ("doctr" +:+ "_version_id") with "doctr_version_id".
    rewrite Hver, Hkey. cbn. rewrite Hadd. cbn.
    rewrite Hinf. cbn. rewrite IH. cbn [fmap list_fmap].
    by rewrite <- !app_assoc.
Qed.

Lemma ocr_loop_inv key imgs :
  forall (acc out : list value) (st st' : state),
    ocr_loop key imgs acc st = (Ok out, st') ->
    exists cs ds,
      ocr_invocations key imgs (model_manager st) cs ds (model_manager st') /\
      out = acc ++ (VDict <$> ds) /\
      outputs_lookup st' = outputs_lookup st /\
      calls st' = calls st ++ cs.
Proof.
  induction imgs as [|img imgs IH]; intros acc out st st'.
  - cbn. intros [= <- <-]. exists [], []. rewrite !app_nil_r.
    split; [constructor|done].
  - cbn [ocr_loop]. unfold load_core_model. run_exec. cbn.
    destruct (new_request "DoctrOCRInferenceRequest" [("image", img)])
      as [req0|] eqn:Hnew; [|done]. cbn.
    change ("doctr" +:+ "_version_id") with "doctr_version_id".
    set (req := if truthy key then request_setattr req0 "api_key" key
                else req0).
    destruct (request_getattr req "doctr_version_id")
      as [version|] eqn:Hver; [|done].
    destruct (request_getattr req "api_key") as [rkey|] eqn:Hkey; [|done]. cbn.
    match goal with
    | |- context [add_model ?i ?k ?m] =>
        destruct (add_model i k m) as [[[]|] m1] eqn:Hadd; [|done]
    end. cbn.
    match goal with
    | |- context [infer_from_request ?i ?r ?m] =>
        destruct (infer_from_request i r m) as [[raw|] m2] eqn:Hinf; [|done]
    end. cbn.
    destruct raw as [| | | | | |d]; try done. cbn.
    intros Hloop. apply IH in Hloop as (css & ds & Hrest & -> & Hol & Hcs).
    cbn in Hrest, Hol, Hcs.
    exists ([AddModel (VStr ("doctr" ++ "/" ++ format version)%string) rkey;
             InferFromRequest (VStr ("doctr" ++ "/" ++ format version)%string) req
               (Ok (VModel d))] ++ css), (d :: ds).
    split; [|split; [|split]].
    + econstructor; [|exact Hrest].
      exists req0, version, rkey, m1. cbn zeta. done.
    + cbn [fmap list_fmap]. by rewrite <- app_assoc.
    + done.
    + rewrite Hcs. by rewrite <- !app_assoc.
Qed.

Lemma ocr_invocations_length key imgs m cs ds m' :
  ocr_invocations key imgs m cs ds m' -> length ds = length imgs.
Proof. induction 1; cbn; congruence. Qed.

Lemma ocr_invocations_outcomes key imgs m cs ds m' :
  ocr_invocations key imgs m cs ds m' ->
  inference_outcomes cs = (fun d => Ok (VModel d)) <$> ds.
Proof.
  induction 1 as [|img imgs m cs d m1 css ds m' Hone _ IH]; [done|].
  destruct Hone as (req0 & version & rkey & m0 & Hone). cbn zeta in Hone.
  destruct Hone as (_ & _ & _ & _ & _ & ->).
  cbn. unfold inference_outcomes in IH. by rewrite IH.
Qed.

Lemma run_ocr_model_step_Ok s rp key st img cs ds m' :
  get_image s rp (outputs_lookup st) = Ok img ->
  ocr_invocations key (as_batch img) (model_manager st) cs ds m' ->
  run_ocr_model_step s rp key st
  = (Ok None,
     {| outputs_lookup :=
          <[construct_step_selector (name s) :=
              unwrap_single_list (VDict <$> ds)]> (outputs_lookup st);
        model_manager := m';
        calls := calls st ++ cs |}).
Proof.
  intros Himg Hinv. unfold run_ocr_model_step. run_exec.
  rewrite Himg. destruct st as [ol m cs0]. cbn in *.
  by rewrite (ocr_loop_Ok _ _ _ _ _ _ Hinv ol cs0 []).
Qed.

Lemma run_ocr_model_step_inv s rp key st r st' :
  run_ocr_model_step s rp key st = (Ok r, st') ->
  exists img cs ds,
    get_image s rp (outputs_lookup st) = Ok img /\
    ocr_invocations key (as_batch img) (model_manager st) cs ds
      (model_manager st') /\
    r = None /\
    st' = {| outputs_lookup :=
               <[construct_step_selector (name s) :=
                   unwrap_single_list (VDict <$> ds)]> (outputs_lookup st);
             model_manager := model_manager st';
             calls := calls st ++ cs |}.
Proof.
  unfold run_ocr_model_step. run_exec.
  destruct (get_image s rp (outputs_lookup st)) as [img|] eqn:Himg; [|done].
  destruct (ocr_loop key (as_batch img) [] st) as [[out|] st1] eqn:Hloop;
    [|done].
  apply ocr_loop_inv in Hloop as (cs & ds & Hinv & -> & Hol & Hcs).
  intros [= <- <-]. cbn. exists img, cs, ds. rewrite Hol, Hcs. done.
Qed.

End ExecutionProperties.

(** ** The request-constructor table *)

Lemma MODEL_TYPE2REQUEST_CONSTRUCTOR_None `{SelectorGrammar, Collaborators}
    (t : string) :
  MODEL_TYPE2REQUEST_CONSTRUCTOR !! t = None <->
  t ∉ ["ClassificationModel"; "MultiLabelClassificationModel";
       "ObjectDetectionModel"; "KeypointsDetectionModel";
       "InstanceSegmentationModel"].
Proof.
  unfold MODEL_TYPE2REQUEST_CONSTRUCTOR.
  rewrite <- not_elem_of_list_to_map. cbn [fmap list_fmap fst]. done.
Qed.

Section ModelStepProperties.
Context {G : SelectorGrammar} {C : Collaborators}.

#[local] Arguments MODEL_TYPE2REQUEST_CONSTRUCTOR : simpl never.
#[local] Arguments resolve : simpl never.
#[local] Arguments get_image : simpl never.
#[local] Arguments lookup : simpl never.
#[local] Arguments insert : simpl never.

(** C3.  [run_roboflow_model_step] stores the serialisation of the raw
    answer of the inference call: the fields of a single response; for a
    list of responses the list of their fields, except that a list of
    exactly one response is stored as the fields of that response.
    [run_ocr_model_step] assembles the serialised answers of its per-image
    inference calls into a list and stores it in the same way: unwrapped to
    the bare record for one image, kept as a list for two or more. *)
Theorem serialised_result_unwrapped
    (s : step) (rp : gmap string value) (key : value) (st : state) :
  (forall model_id req raw m2,
     roboflow_invocation s rp key st model_id req raw m2 ->
     let stores := fun v =>
       run_roboflow_model_step s rp key st
       = (Ok None, roboflow_final s key st model_id req raw m2 v) in
     (forall d, raw = VModel d -> stores (VDict d)) /\
     (forall d, raw = VList [VModel d] -> stores (VDict d)) /\
     (forall ds, raw = VList (VModel <$> ds) -> length ds <> 1 ->
                 stores (VList (VDict <$> ds)))) /\
  (forall img cs ds m',
     get_image s rp (outputs_lookup st) = Ok img ->
     ocr_invocations key (as_batch img) (model_manager st) cs ds m' ->
     let stores := fun v =>
       run_ocr_model_step s rp key st
       = (Ok None,
          {| outputs_lookup :=
               <[construct_step_selector (name s) := v]> (outputs_lookup st);
             model_manager := m';
             calls := calls st ++ cs |}) in
     (forall d, ds = [d] -> stores (VDict d)) /\
     (length ds <> 1 -> stores (VList (VDict <$> ds)))).
Proof.
  split.
  - intros model_id req raw m2 Hinv stores. subst stores. cbn beta.
    split; [|split].
    + intros d ->.
      by rewrite (run_roboflow_model_step_Ok _ _ _ _ _ _ _ _ (VDict d) Hinv).
    + intros d ->.
      by rewrite (run_roboflow_model_step_Ok _ _ _ _ _ _ _ _
                    (VList [VDict d]) Hinv).
    + intros ds -> Hlen.
      rewrite (run_roboflow_model_step_Ok _ _ _ _ _ _ _ _
                 (VList (VDict <$> ds)) Hinv).
      * destruct ds as [|d [|d' ds]]; cbn in *; done.
      * apply serialise_Ok. right. eauto.
  - intros img cs ds m' Himg Hinv stores. subst stores. cbn beta.
    rewrite (run_ocr_model_step_Ok _ _ _ _ _ _ _ _ Himg Hinv). split.
    + intros d ->. done.
    + intros Hlen. destruct ds as [|d [|d' ds]]; cbn in *; done.
Qed.

(** C4, as the code has it.  Storing under a step entry that is already
    present does not fail: the write is a plain item assignment, and a step
    that is executed while its entry exists replaces that entry by the new
    result. *)
Theorem setitem_replaces_present_entry
    (s : step) (rp : gmap string value) (key : value) (st : state)
    (old : value) :
  outputs_lookup st !! construct_step_selector (name s) = Some old ->
  (forall v, exists st',
     setitem (construct_step_selector (name s)) v st = (Ok tt, st') /\
     outputs_lookup st' !! construct_step_selector (name s) = Some v) /\
  (forall model_id req raw m2 sv,
     roboflow_invocation s rp key st model_id req raw m2 ->
     serialise raw = Ok sv ->
     exists st',
       run_roboflow_model_step s rp key st = (Ok None, st') /\
       outputs_lookup st' !! construct_step_selector (name s)
       = Some (unwrap_single sv)) /\
  (forall img cs ds m',
     get_image s rp (outputs_lookup st) = Ok img ->
     ocr_invocations key (as_batch img) (model_manager st) cs ds m' ->
     exists st',
       run_ocr_model_step s rp key st = (Ok None, st') /\
       outputs_lookup st' !! construct_step_selector (name s)
       = Some (unwrap_single_list (VDict <$> ds))).
Proof.
  intros _. split; [|split].
  - intros v. eexists. split; [reflexivity|]. cbn. apply lookup_insert_eq.
  - intros model_id req raw m2 sv Hinv Hsv. eexists. split.
    + by apply run_roboflow_model_step_Ok.
    + cbn. apply lookup_insert_eq.
  - intros img cs ds m' Himg Hinv. eexists. split.
    + by eapply run_ocr_model_step_Ok.
    + cbn. apply lookup_insert_eq.
Qed.

(** C5.  A step whose type is not a key of
    [MODEL_TYPE2REQUEST_CONSTRUCTOR] is rejected when it is built, with the
    configuration error, before anything is executed; every step that is
    built carries one of the five registered types, so that the table
    lookup [run_roboflow_model_step] makes when it is invoked on the step
    finds a constructor. *)
Theorem unregistered_type_fails_at_construction
    (t n : string) (img : value) (fs : gmap string value) :
  (t ∉ ["ClassificationModel"; "MultiLabelClassificationModel";
        "ObjectDetectionModel"; "KeypointsDetectionModel";
        "InstanceSegmentationModel"] ->
   RoboflowModel t n img fs
   = Raise (ExternalError "UnsupportedStepTypeError")) /\
  (forall s : step,
     RoboflowModel t n img fs = Ok s ->
     s = {| type := t; name := n; image := img; fields := fs |} /\
     t ∈ ["ClassificationModel"; "MultiLabelClassificationModel";
          "ObjectDetectionModel"; "KeypointsDetectionModel";
          "InstanceSegmentationModel"] /\
     exists ctor : request_constructor,
       dict_getitem MODEL_TYPE2REQUEST_CONSTRUCTOR (type s) = Ok ctor).
Proof.
  unfold RoboflowModel. split.
  - intros Ht. apply MODEL_TYPE2REQUEST_CONSTRUCTOR_None in Ht.
    by rewrite Ht.
  - intros s.
    destruct (MODEL_TYPE2REQUEST_CONSTRUCTOR !! t) as [ctor|] eqn:Hctor;
      [|done].
    intros [= <-]. split; [done|]. split.
    + destruct (decide (t ∈ ["ClassificationModel";
                             "MultiLabelClassificationModel";
                             "ObjectDetectionModel";
                             "KeypointsDetectionModel";
                             "InstanceSegmentationModel"]))
        as [Hin|Hout]; [done|].
      apply MODEL_TYPE2REQUEST_CONSTRUCTOR_None in Hout. congruence.
    + exists ctor. unfold dict_getitem. cbn [type]. by rewrite Hctor.
Qed.

(** C7.  When the image of an OCR step resolves to a list of two or more
    images, [run_ocr_model_step] makes the inference calls one per image, in
    the order of the list, and stores the list of the serialised answers in
    that order; the run succeeds whenever each of these invocations does,
    and a successful run is of this form.  An image that is not a list is
    handled as the list of that one image. *)
Theorem run_ocr_model_step_iterates_batch
    (s : step) (rp : gmap string value) (key : value) (st : state) :
  (forall imgs : list value,
     get_image s rp (outputs_lookup st) = Ok (VList imgs) ->
     2 <= length imgs ->
     (forall cs ds m',
        ocr_invocations key imgs (model_manager st) cs ds m' ->
        run_ocr_model_step s rp key st
        = (Ok None,
           {| outputs_lookup :=
                <[construct_step_selector (name s) := VList (VDict <$> ds)]>
                  (outputs_lookup st);
              model_manager := m';
              calls := calls st ++ cs |}) /\
        length ds = length imgs /\
        inference_outcomes cs = (fun d => Ok (VModel d)) <$> ds) /\
     (forall r st',
        run_ocr_model_step s rp key st = (Ok r, st') ->
        exists cs ds,
          ocr_invocations key imgs (model_manager st) cs ds (model_manager st') /\
          calls st' = calls st ++ cs /\
          outputs_lookup st'
          = <[construct_step_selector (name s) := VList (VDict <$> ds)]>
              (outputs_lookup st) /\
          length ds = length imgs /\
          inference_outcomes cs = (fun d => Ok (VModel d)) <$> ds)) /\
  (forall img : value,
     get_image s rp (outputs_lookup st) = Ok img ->
     is_list img = false ->
     forall cs ds m',
       ocr_invocations key [img] (model_manager st) cs ds m' ->
       run_ocr_model_step s rp key st
       = (Ok None,
          {| outputs_lookup :=
               <[construct_step_selector (name s) :=
                   unwrap_single_list (VDict <$> ds)]> (outputs_lookup st);
             model_manager := m';
             calls := calls st ++ cs |}) /\
       length ds = 1 /\
       inference_outcomes cs = (fun d => Ok (VModel d)) <$> ds).
Proof.
  assert (Hmany : forall (imgs : list value) (ds : list (gmap string value)),
             2 <= length imgs -> length ds = length imgs ->
             unwrap_single_list (VDict <$> ds) = VList (VDict <$> ds)).
  { intros imgs ds Himgs Hlen. rewrite <- Hlen in Himgs.
    destruct ds as [|d [|d' ds]]; cbn in *; [lia|lia|done]. }
  split.
  - intros imgs Himg Hlen. split.
    + intros cs ds m' Hinv.
      pose proof (ocr_invocations_length _ _ _ _ _ _ Hinv) as Hds.
      rewrite (run_ocr_model_step_Ok _ _ _ _ _ _ _ _ Himg Hinv).
      rewrite (Hmany imgs ds Hlen Hds).
      split; [done|]. split; [done|].
      by eapply ocr_invocations_outcomes.
    + intros r st' Hrun.
      apply run_ocr_model_step_inv in Hrun
        as (img & cs & ds & Himg' & Hinv & -> & Hst').
      rewrite Himg in Himg'. injection Himg' as <-. cbn in Hinv.
      pose proof (ocr_invocations_length _ _ _ _ _ _ Hinv) as Hds.
      exists cs, ds. rewrite Hst' at 2 3. cbn.
      rewrite (Hmany imgs ds Hlen Hds).
      split; [done|]. split; [done|]. split; [done|]. split; [done|].
      by eapply ocr_invocations_outcomes.
  - intros img Himg Hnl cs ds m' Hinv.
    assert (Hb : as_batch img = [img]) by (by destruct img).
    rewrite <- Hb in Hinv.
    rewrite (run_ocr_model_step_Ok _ _ _ _ _ _ _ _ Himg Hinv).
    rewrite Hb in Hinv.
    split; [done|]. split.
    + by rewrite (ocr_invocations_length _ _ _ _ _ _ Hinv).
    + by eapply ocr_invocations_outcomes.
Qed.

(** C10, as the code has it.  A successful execution of
    [run_roboflow_model_step] or of [run_ocr_model_step] answers [None] as
    the next step, sets the entry of the lookup under the selector built
    from the name of the step, and leaves the entry under every other key
    as it was; when the step had no entry before, the lookup has exactly
    one entry more. *)
Theorem model_step_writes_own_entry
    (s : step) (rp : gmap string value) (key : value) (st st' : state)
    (r : option string) :
  run_roboflow_model_step s rp key st = (Ok r, st') \/
  run_ocr_model_step s rp key st = (Ok r, st') ->
  r = None /\
  exists v : value,
    outputs_lookup st'
    = <[construct_step_selector (name s) := v]> (outputs_lookup st) /\
    outputs_lookup st' !! construct_step_selector (name s) = Some v /\
    (forall k : string,
       k <> construct_step_selector (name s) ->
       outputs_lookup st' !! k = outputs_lookup st !! k) /\
    (outputs_lookup st !! construct_step_selector (name s) = None ->
     size (outputs_lookup st') = S (size (outputs_lookup st))).
Proof.
  intros Hrun.
  assert (Hset : exists v,
             r = None /\
             outputs_lookup st'
             = <[construct_step_selector (name s) := v]> (outputs_lookup st)).
  { destruct Hrun as [Hrun|Hrun].
    - apply run_roboflow_model_step_inv in Hrun
        as (model_id & req & raw & m2 & sv & _ & _ & -> & ->).
      eexists. split; [done|]. reflexivity.
    - apply run_ocr_model_step_inv in Hrun
        as (img & cs & ds & _ & _ & -> & ->).
      eexists. split; [done|]. reflexivity. }
  destruct Hset as (v & -> & Hol). split; [done|].
  exists v. rewrite Hol. split; [done|]. split; [|split].
  - apply lookup_insert_eq.
  - intros k Hk. by apply lookup_insert_ne.
  - intros Hnew. by apply map_size_insert_None.
Qed.

End ModelStepProperties.

(** ** The properties on examples *)

Import Examples.

Ltac compute_eq := vm_compute; reflexivity.

Lemma resolve_parameter_batch_broadcast_witness :
  resolve_parameter (VStr "$steps.detection.predictions") ∅ two_records
  = Ok (VList [VInt 1; VInt 2]) /\
  resolve_parameter (VStr "$steps.detection.predictions") ∅ one_record
  = Ok (VInt 7).
Proof.
  split.
  - destruct (resolve_parameter_batch_broadcast (G := compiler_utils)
                (VStr "$steps.detection.predictions") "$steps.detection"
                "predictions" ∅ two_records eq_refl eq_refl eq_refl)
      as [Hlist _].
    destruct (Hlist _ eq_refl) as [Hmap _]. rewrite Hmap. reflexivity.
  - destruct (resolve_parameter_batch_broadcast (G := compiler_utils)
                (VStr "$steps.detection.predictions") "$steps.detection"
                "predictions" ∅ one_record eq_refl eq_refl eq_refl)
      as [_ Hrecord].
    rewrite (Hrecord _ eq_refl). reflexivity.
Defined.

Lemma resolve_parameter_identity_witness :
  resolve_parameter (VInt 5) one_image one_record = Ok (VInt 5) /\
  resolve_parameter (VStr "$inputs.image") one_image one_record
  = Ok (VStr "a.jpg").
Proof.
  destruct (resolve_parameter_identity_on_non_references (G := compiler_utils))
    as (Hliteral & _ & Hinput).
  split.
  - apply Hliteral. reflexivity.
  - apply (Hinput _ "image"); reflexivity.
Defined.

Lemma resolve_absent_step_fails_witness :
  resolve_parameter (VStr "$steps.unknown.field") one_image one_record
  = Raise (KeyError "$steps.unknown").
Proof.
  apply (resolve_absent_step_fails (G := compiler_utils) (VStr "$steps.unknown.field")
           "$steps.unknown" one_image one_record); reflexivity.
Defined.

Lemma get_image_rejects_literals_witness :
  get_image literal_image one_image one_record
  = Raise (RuntimeError "Cannot find image").
Proof.
  apply (get_image_rejects_literals (G := compiler_utils) literal_image one_image one_record);
    reflexivity.
Defined.

Lemma manifest_defaults_witness :
  get_input_dimensionality_offsets plain_manifest = ∅ /\
  get_dimensionality_reference_property plain_manifest = None /\
  get_output_dimensionality_offset plain_manifest = 0%Z /\
  accepts_batch_input plain_manifest = false /\
  accepts_empty_values plain_manifest = false.
Proof.
  destruct (manifest_defaults plain_manifest) as (H1 & H2 & H3 & H4 & H5).
  split; [apply (H1 eq_refl)|].
  split; [apply (H2 eq_refl)|].
  split; [apply (H3 eq_refl)|].
  split; [apply (H4 eq_refl)|apply (H5 eq_refl)].
Defined.

Lemma roboflow_invocation_two_images :
  let imgs := VList [VStr "a.jpg"; VStr "b.jpg"] in
  roboflow_invocation (G := compiler_utils) (C := batched)
    detection two_images api_key (start batched 0)
    (VStr "yolov8n/1") (detection_request imgs)
    (VList (Stub.response <$> [VStr "a.jpg"; VStr "b.jpg"])) 1.
Proof.
  exists 1, (VList [VStr "a.jpg"; VStr "b.jpg"]),
    (construct_object_detection_request (G := compiler_utils) (C := batched)).
  repeat split; compute_eq.
Defined.

Lemma ocr_invocation_example (file : string) (loaded : nat) :
  ocr_invocation (C := batched) api_key (VStr file) loaded
    (ocr_calls (VStr file) (Stub.response (VStr file)))
    (response_fields (VStr file)) (S loaded).
Proof.
  exists {| request_class := "DoctrOCRInferenceRequest";
            request_fields := list_to_map [("image", VStr file)]
                              ∪ Stub.defaults "DoctrOCRInferenceRequest" |},
    (VStr "default"), api_key, (S loaded).
  cbn zeta. split; [reflexivity|]. split; [compute_eq|].
  split; [compute_eq|]. split; [reflexivity|].
  split; [|reflexivity]. compute_eq.
Defined.

Lemma ocr_invocations_two_images :
  ocr_invocations (C := batched) api_key [VStr "a.jpg"; VStr "b.jpg"] 0
    (ocr_calls (VStr "a.jpg") (Stub.response (VStr "a.jpg")) ++
     ocr_calls (VStr "b.jpg") (Stub.response (VStr "b.jpg")) ++ [])
    [response_fields (VStr "a.jpg"); response_fields (VStr "b.jpg")] 2.
Proof.
  eapply ocr_invocations_cons; [apply ocr_invocation_example|].
  eapply ocr_invocations_cons; [apply ocr_invocation_example|].
  apply ocr_invocations_nil.
Defined.

Lemma ocr_invocations_one_image :
  ocr_invocations (C := batched) api_key [VStr "a.jpg"] 0
    (ocr_calls (VStr "a.jpg") (Stub.response (VStr "a.jpg")) ++ [])
    [response_fields (VStr "a.jpg")] 1.
Proof.
  eapply ocr_invocations_cons; [apply ocr_invocation_example|].
  apply ocr_invocations_nil.
Defined.

(** Two images give [detection] a list of two records; one image gives
    [ocr] a bare record. *)
Lemma serialised_result_unwrapped_witness :
  outputs_lookup
    (snd (run_roboflow_model_step (G := compiler_utils) (C := batched)
            detection two_images api_key (start batched 0)))
  !! "$steps.detection"
  = Some (VList [VDict (response_fields (VStr "a.jpg"));
                 VDict (response_fields (VStr "b.jpg"))]) /\
  outputs_lookup
    (snd (run_ocr_model_step (G := compiler_utils) (C := batched)
            ocr one_image api_key (start batched 0)))
  !! "$steps.ocr"
  = Some (VDict (response_fields (VStr "a.jpg"))).
Proof.
  destruct (serialised_result_unwrapped (G := compiler_utils) (C := batched)
              detection two_images api_key (start batched 0)) as [Hmodel _].
  destruct (serialised_result_unwrapped (G := compiler_utils) (C := batched)
              ocr one_image api_key (start batched 0)) as [_ Hocr].
  split.
  - destruct (Hmodel _ _ _ _ roboflow_invocation_two_images) as (_ & _ & Hmany).
    rewrite (Hmany [response_fields (VStr "a.jpg");
                    response_fields (VStr "b.jpg")] eq_refl);
      [compute_eq|discriminate].
  - destruct (Hocr (VStr "a.jpg") _ _ _ eq_refl ocr_invocations_one_image)
      as [Hone _].
    rewrite (Hone _ eq_refl). compute_eq.
Defined.

Lemma roboflow_invocation_again :
  roboflow_invocation (G := compiler_utils) (C := numbered)
    detection one_image api_key executed_once
    (VStr "yolov8n/1") (detection_request (VStr "a.jpg"))
    (VModel (numbered_fields 2)) 2.
Proof.
  exists 2, (VStr "a.jpg"),
    (construct_object_detection_request (G := compiler_utils) (C := numbered)).
  repeat split; compute_eq.
Defined.

(** [detection] is executed a second time: the entry written by the first
    execution is replaced. *)
Lemma setitem_replaces_present_entry_witness :
  outputs_lookup executed_once !! "$steps.detection"
  = Some (VDict (numbered_fields 1)) /\
  exists st',
    run_roboflow_model_step (G := compiler_utils) (C := numbered)
      detection one_image api_key executed_once = (Ok None, st') /\
    outputs_lookup st' !! "$steps.detection"
    = Some (VDict (numbered_fields 2)).
Proof.
  assert (Hold : outputs_lookup executed_once
                 !! construct_step_selector (name detection)
                 = Some (VDict (numbered_fields 1))) by compute_eq.
  split; [exact Hold|].
  destruct (setitem_replaces_present_entry (G := compiler_utils)
              (C := numbered) detection one_image api_key executed_once
              _ Hold) as (_ & Hmodel & _).
  exact (Hmodel _ _ _ _ (VDict (numbered_fields 2))
           roboflow_invocation_again eq_refl).
Defined.

(** The second execution of [detection] does not fail on the entry the
    first one wrote, and the first result is gone. *)
Lemma second_write_does_not_fail :
  let first := run_roboflow_model_step (G := compiler_utils) (C := numbered)
                 detection one_image api_key (start numbered 0) in
  let second := run_roboflow_model_step (G := compiler_utils) (C := numbered)
                  detection one_image api_key (snd first) in
  (fst first = Ok None /\
   outputs_lookup (snd first) !! "$steps.detection"
   = Some (VDict (numbered_fields 1)) /\
   fst second = Ok None /\
   outputs_lookup (snd second) !! "$steps.detection"
   = Some (VDict (numbered_fields 2))) /\
  ~ (forall (s : step) (rp : gmap string value) (key : value)
            (st : @state numbered) (old : value),
       outputs_lookup st !! construct_step_selector (name s) = Some old ->
       exists (e : exn) (st' : @state numbered),
         run_roboflow_model_step (G := compiler_utils) (C := numbered)
           s rp key st = (Raise e, st')).
Proof.
  cbv zeta. split; [repeat split; compute_eq|].
  intros Hclaim.
  assert (Hold : outputs_lookup executed_once
                 !! construct_step_selector (name detection)
                 = Some (VDict (numbered_fields 1))) by compute_eq.
  destruct (Hclaim detection one_image api_key executed_once _ Hold)
    as (e & st' & Hrun).
  vm_compute in Hrun. discriminate.
Qed.

Lemma unregistered_type_fails_at_construction_witness :
  RoboflowModel (G := compiler_utils) (C := batched) "YoloWorldModel" "world"
    (VStr "$inputs.image") ∅
  = Raise (ExternalError "UnsupportedStepTypeError") /\
  RoboflowModel (G := compiler_utils) (C := batched) "ObjectDetectionModel"
    "detection" (image detection) (fields detection)
  = Ok detection /\
  exists ctor : request_constructor,
    dict_getitem (MODEL_TYPE2REQUEST_CONSTRUCTOR (G := compiler_utils)
                    (C := batched)) (type detection)
    = Ok ctor.
Proof.
  destruct (unregistered_type_fails_at_construction (G := compiler_utils)
              (C := batched) "YoloWorldModel" "world" (VStr "$inputs.image") ∅)
    as [Hrejected _].
  destruct (unregistered_type_fails_at_construction (G := compiler_utils)
              (C := batched) "ObjectDetectionModel" "detection"
              (image detection) (fields detection))
    as [_ Hbuilt].
  split; [|split].
  - apply Hrejected. apply (bool_decide_unpack _). vm_compute. exact I.
  - reflexivity.
  - destruct (Hbuilt detection eq_refl) as (_ & _ & Hctor). exact Hctor.
Defined.

Lemma run_ocr_model_step_iterates_batch_witness :
  run_ocr_model_step (G := compiler_utils) (C := batched)
    ocr two_images api_key (start batched 0)
  = (Ok None,
     snapshot batched
       (<["$steps.ocr" := VList [VDict (response_fields (VStr "a.jpg"));
                                 VDict (response_fields (VStr "b.jpg"))] ]> ∅)
       2
       (ocr_calls (VStr "a.jpg") (Stub.response (VStr "a.jpg")) ++
        ocr_calls (VStr "b.jpg") (Stub.response (VStr "b.jpg")))).
Proof.
  destruct (run_ocr_model_step_iterates_batch (G := compiler_utils)
              (C := batched) ocr two_images api_key (start batched 0))
    as [Hbatch _].
  assert (Hlen : 2 <= length [VStr "a.jpg"; VStr "b.jpg"]) by (cbn; lia).
  destruct (Hbatch [VStr "a.jpg"; VStr "b.jpg"] eq_refl Hlen) as [Hrun _].
  destruct (Hrun _ _ _ ocr_invocations_two_images) as [-> _].
  reflexivity.
Defined.

Lemma model_step_writes_own_entry_witness :
  let after := snd (run_ocr_model_step (G := compiler_utils) (C := batched)
                      ocr one_image api_key detected) in
  outputs_lookup after !! "$steps.ocr"
  = Some (VDict (response_fields (VStr "a.jpg"))) /\
  outputs_lookup after !! "$steps.detection"
  = outputs_lookup detected !! "$steps.detection" /\
  size (outputs_lookup after) = S (size (outputs_lookup detected)).
Proof.
  cbv zeta.
  assert (Hrun : run_ocr_model_step (G := compiler_utils) (C := batched)
                   ocr one_image api_key detected
                 = (Ok None,
                    snd (run_ocr_model_step (G := compiler_utils)
                           (C := batched) ocr one_image api_key detected)))
    by compute_eq.
  destruct (model_step_writes_own_entry (G := compiler_utils) (C := batched)
              ocr one_image api_key detected _ _ (or_intror Hrun))
    as (_ & v & _ & Hown & Hframe & Hsize).
  split; [|split].
  - compute_eq.
  - apply Hframe. discriminate.
  - apply Hsize. compute_eq.
Defined.

(** A successful execution that adds no entry and changes one that was
    there: the second execution of [detection]. *)
Lemma second_execution_adds_no_entry :
  ~ (forall (s : step) (rp : gmap string value) (key : value)
            (st st' : @state numbered) (r : option string),
       run_roboflow_model_step (G := compiler_utils) (C := numbered)
         s rp key st = (Ok r, st') ->
       size (outputs_lookup st') = S (size (outputs_lookup st)) /\
       forall (k : string) (v : value),
         outputs_lookup st !! k = Some v -> outputs_lookup st' !! k = Some v).
Proof.
  intros Hclaim.
  assert (Hrun : run_roboflow_model_step (G := compiler_utils) (C := numbered)
                   detection one_image api_key executed_once
                 = (Ok None,
                    snd (run_roboflow_model_step (G := compiler_utils)
                           (C := numbered) detection one_image api_key
                           executed_once))) by compute_eq.
  destruct (Hclaim _ _ _ _ _ _ Hrun) as [Hsize _].
  vm_compute in Hsize. discriminate.
Qed.

(** * Further properties of the resolution functions *)

Lemma mapM_Raise {A B : Type} (f : A -> result B) (pre : list A) (x : A)
    (rest : list A) (ks : list B) (e : exn) :
  Forall2 (fun a b => f a = Ok b) pre ks ->
  f x = Raise e ->
  mapM f (pre ++ x :: rest) = Raise e.
Proof.
  intros Hpre Hx. induction Hpre as [|a b pre ks Ha _ IH]; cbn.
  - unfold mbind, result_bind. by rewrite Hx.
  - unfold mbind, result_bind in *. by rewrite Ha, IH.
Qed.

Section MoreResolution.
Context {G : SelectorGrammar} {L : SelectorLaws G}.

(** X1.  An input selector is read from the runtime inputs by its last chunk:
    [get_image] answers the value bound there, and where nothing is bound
    both [get_image] and [resolve_parameter] raise the key error carrying
    the name, whatever the lookup holds. *)
Theorem input_selector_reads_runtime_parameters
    (sel : value) (n : string) (rp ol : gmap string value) :
  is_input_selector sel = true ->
  get_last_selector_chunk sel = Ok n ->
  (forall (s : step) (x : value),
     image s = sel -> rp !! n = Some x -> get_image s rp ol = Ok x) /\
  (rp !! n = None ->
   resolve_parameter sel rp ol = Raise (KeyError n) /\
   forall s : step, image s = sel -> get_image s rp ol = Raise (KeyError n)).
Proof.
  intros Hin Hn.
  assert (Himg : forall s, image s = sel ->
                           get_image s rp ol = dict_getitem rp n).
  { intros s Hs. unfold get_image. by rewrite Hs, Hin, Hn. }
  split.
  - intros s x Hs Hx. rewrite (Himg s Hs). unfold dict_getitem. by rewrite Hx.
  - intros Hnone. split.
    + unfold resolve_parameter.
      rewrite (input_selector_is_selector _ Hin),
        (input_selector_not_step_output _ Hin), Hn.
      cbn. unfold dict_getitem. by rewrite Hnone.
    + intros s Hs. rewrite (Himg s Hs). unfold dict_getitem. by rewrite Hnone.
Qed.

(** X2.  [get_image] does not map over a stored list: for an image given by a
    step-output selector it answers the field of a stored record (the key
    error carrying the field when the record lacks it), and raises
    [TypeError] when the stored result is a list, also where
    [resolve_parameter] resolves the same selector to the list of the
    fields. *)
Theorem get_image_does_not_broadcast
    (s : step) (k f : string) (rp ol : gmap string value) :
  is_step_output_selector (image s) = true ->
  get_step_selector_from_its_output (image s) = Ok k ->
  get_last_selector_chunk (image s) = Ok f ->
  (forall d : gmap string value,
     ol !! k = Some (VDict d) -> get_image s rp ol = dict_getitem d f) /\
  (forall es : list value,
     ol !! k = Some (VList es) ->
     get_image s rp ol = Raise TypeError /\
     forall ds : list (gmap string value),
       es = VDict <$> ds ->
       Forall (fun d => is_Some (d !! f)) ds ->
       exists vs, resolve_parameter (image s) rp ol = Ok (VList vs) /\
                  length vs = length ds).
Proof.
  intros Hso Hk Hf.
  assert (Hin : is_input_selector (image s) = false).
  { destruct (is_input_selector (image s)) eqn:Hin; [|done].
    apply input_selector_not_step_output in Hin. congruence. }
  assert (Himg : get_image s rp ol
                 = (step_output ← dict_getitem ol k; getitem step_output f)).
  { unfold get_image. by rewrite Hin, Hso, Hk, Hf. }
  split.
  - intros d Hd. rewrite Himg. unfold dict_getitem at 1. by rewrite Hd.
  - intros es Hes. split.
    + rewrite Himg. unfold dict_getitem. by rewrite Hes.
    + intros ds -> Hds.
      rewrite (resolve_parameter_step_output _ k rp ol Hso Hk), Hf.
      unfold dict_getitem at 1. rewrite Hes. cbn.
      assert (Hex : exists vs,
                 Forall2 (fun e v => getitem e f = Ok v) (VDict <$> ds) vs /\
                 length vs = length ds).
      { clear Hes Himg. induction Hds as [|d ds [x Hx] _ (vs & IH & Hlen)].
        - exists []. split; [constructor|done].
        - exists (x :: vs). split; [|cbn; by rewrite Hlen].
          constructor; [|done]. cbn. unfold dict_getitem. by rewrite Hx. }
      destruct Hex as (vs & Hvs & Hlen). exists vs. split; [|done].
      apply mapM_Ok in Hvs. by rewrite Hvs.
Qed.

(** X3.  The resolution of a step-output selector against a stored list is all
    or nothing: an empty list resolves to the empty list, and the first
    element whose field access fails makes the whole resolution raise that
    error, whatever follows it. *)
Theorem resolve_parameter_batch_all_or_nothing
    (sel : value) (k f : string) (rp ol : gmap string value) :
  is_step_output_selector sel = true ->
  get_step_selector_from_its_output sel = Ok k ->
  get_last_selector_chunk sel = Ok f ->
  (ol !! k = Some (VList []) -> resolve_parameter sel rp ol = Ok (VList [])) /\
  (forall (pre : list value) (e : value) (rest vs : list value) (err : exn),
     ol !! k = Some (VList (pre ++ e :: rest)) ->
     Forall2 (fun e v => getitem e f = Ok v) pre vs ->
     getitem e f = Raise err ->
     resolve_parameter sel rp ol = Raise err).
Proof.
  intros Hso Hk Hf.
  pose proof (resolve_parameter_step_output sel k rp ol Hso Hk) as Hres.
  rewrite Hf in Hres. unfold dict_getitem at 1 in Hres. split.
  - intros Hes. by rewrite Hes in Hres.
  - intros pre e rest vs err Hes Hpre He. rewrite Hes in Hres. cbn in Hres.
    by rewrite (mapM_Raise _ pre e rest vs err Hpre He) in Hres.
Qed.

End MoreResolution.

Section ResolutionFrame.
Context {G : SelectorGrammar}.

(** What [resolve_parameter] answers depends on the lookup only through
    the entry of the step the selector names: storing a result under any
    other key leaves the answer as it was. *)
Lemma resolve_parameter_ignores_other_entries
    (v : value) (k' : string) (x : value) (rp ol : gmap string value) :
  (forall k : string, get_step_selector_from_its_output v = Ok k -> k <> k') ->
  resolve_parameter v rp (<[k' := x]> ol) = resolve_parameter v rp ol.
Proof.
  intros Hother. unfold resolve_parameter.
  destruct (negb (is_selector v)); [done|].
  destruct (is_step_output_selector v); [|done].
  destruct (get_step_selector_from_its_output v) as [k|e] eqn:Hk; [|done].
  cbn. unfold dict_getitem.
  by rewrite (lookup_insert_ne ol k' k x (not_eq_sym (Hother k eq_refl))).
Qed.

End ResolutionFrame.

(** * The provider list (onnx.py) *)

(** X5.  [has_trt] answers [True] exactly when some entry of the list, bare or a
    tuple with any options, is named [TensorrtExecutionProvider]. *)
Theorem has_trt_true_iff (providers : list provider) :
  has_trt providers = true <->
  ProviderName "TensorrtExecutionProvider" ∈ providers \/
  exists options : gmap string value,
    ProviderTuple "TensorrtExecutionProvider" options ∈ providers.
Proof.
  induction providers as [|p providers IH]; cbn.
  - split; [done|]. intros [H|[o H]]; by apply elem_of_nil in H.
  - destruct p as [n|n o]; destruct (String.eqb_spec n "TensorrtExecutionProvider")
      as [->|Hn].
    + split; [|done]. intros _. left. constructor.
    + rewrite IH. split.
      * intros [H|[o H]]; [left|right; exists o]; by constructor.
      * intros [H|[o H]]; apply elem_of_cons in H as [H|H];
          try (injection H as <-; done); try discriminate; eauto.
    + split; [|done]. intros _. right. exists o. constructor.
    + rewrite IH. split.
      * intros [H|[o' H]]; [left|right; exists o']; by constructor.
      * intros [H|[o' H]]; apply elem_of_cons in H as [H|H];
          try (injection H as <- <-; done); try discriminate; eauto.
Qed.

(** X6.  [has_trt] of a concatenation is the disjunction of [has_trt] of the
    parts, so the answer does not depend on where in the list the provider
    stands. *)
Theorem has_trt_app (front back : list provider) :
  has_trt (front ++ back) = has_trt front || has_trt back.
Proof.
  induction front as [|p front IH]; cbn; [done|].
  by destruct (String.eqb _ _).
Qed.

(** * Further properties of the model steps *)

Section StepOutcomes.
Context {G : SelectorGrammar} {C : Collaborators}.

#[local] Arguments MODEL_TYPE2REQUEST_CONSTRUCTOR : simpl never.
#[local] Arguments serialise : simpl never.
#[local] Arguments resolve : simpl never.
#[local] Arguments get_image : simpl never.
#[local] Arguments lookup : simpl never.
#[local] Arguments insert : simpl never.
#[local] Arguments request_getattr : simpl never.
#[local] Arguments request_setattr : simpl never.
#[local] Arguments truthy : simpl never.

Ltac step_exec :=
  unfold mbind, exec_bind, mret, exec_ret, reading, call_add_model,
    call_infer_from_request, setitem, dict_getitem.

Lemma ocr_loop_outcome key imgs :
  forall (acc : list value) (st : state) (r : result (list value))
         (st' : state),
    ocr_loop key imgs acc st = (r, st') ->
    outputs_lookup st' = outputs_lookup st /\
    exists cs, calls st' = calls st ++ cs /\ registered_before_inference cs.
Proof.
  induction imgs as [|img imgs IH]; intros acc st r st'.
  - cbn. intros [= <- <-]. split; [done|]. exists [].
    rewrite app_nil_r. split; [done|constructor].
  - cbn [ocr_loop]. unfold load_core_model. step_exec. cbn.
    destruct (new_request "DoctrOCRInferenceRequest" [("image", img)])
      as [req0|e0]; cbn.
    2:{ intros [= <- <-]. split; [done|]. exists [].
        rewrite app_nil_r. split; [done|constructor]. }
    set (req := if truthy key then request_setattr req0 "api_key" key
                else req0).
    destruct (request_getattr req ("doctr" +:+ "_version_id"))
      as [version|e1].
    2:{ intros [= <- <-]. split; [done|]. exists [].
        rewrite app_nil_r. split; [done|constructor]. }
    destruct (request_getattr req "api_key") as [rkey|e2]; cbn.
    2:{ intros [= <- <-]. split; [done|]. exists [].
        rewrite app_nil_r. split; [done|constructor]. }
    match goal with
    | |- context [add_model ?i ?k ?m] =>
        destruct (add_model i k m) as [[[]|e3] m1]
    end; cbn.
    2:{ intros [= <- <-]. split; [done|]. eexists. split; [reflexivity|].
        constructor. }
    match goal with
    | |- context [infer_from_request ?i ?q ?m] =>
        destruct (infer_from_request i q m) as [[raw|e4] m2]
    end; cbn.
    2:{ intros [= <- <-]. split; [done|]. cbn. eexists. split.
        - rewrite <- app_assoc. reflexivity.
        - cbn. repeat constructor. }
    destruct (dict_method raw) as [d|e5]; cbn.
    2:{ intros [= <- <-]. split; [done|]. cbn. eexists. split.
        - rewrite <- app_assoc. reflexivity.
        - cbn. repeat constructor. }
    intros Hloop. apply IH in Hloop as (Hol & cs & Hcs & Hshape).
    cbn in Hol, Hcs. split; [done|].
    exists (AddModel (VStr ("doctr" +:+ "/" +:+ format version)) rkey
            :: InferFromRequest (VStr ("doctr" +:+ "/" +:+ format version))
                 req (Ok raw)
            :: cs).
    split.
    + rewrite Hcs. by rewrite <- !app_assoc.
    + by constructor.
Qed.

Lemma run_roboflow_model_step_outcome s rp key st r st' :
  run_roboflow_model_step s rp key st = (r, st') ->
  (forall e, r = Raise e -> outputs_lookup st' = outputs_lookup st) /\
  exists cs,
    calls st' = calls st ++ cs /\ registered_before_inference cs /\
    length cs <= 2.
Proof.
  unfold run_roboflow_model_step. step_exec. cbn.
  destruct (resolve rp (outputs_lookup st) s "model_id") as [model_id|e0].
  2:{ intros [= <- <-]. split; [done|]. exists [].
      rewrite app_nil_r. split; [done|]. split; [constructor|cbn; lia]. }
  destruct (add_model model_id key (model_manager st)) as [[[]|e1] m1]; cbn.
  2:{ intros [= <- <-]. split; [done|]. eexists. split; [reflexivity|].
      split; [constructor|cbn; lia]. }
  destruct (get_image s rp (outputs_lookup st)) as [img|e2].
  2:{ intros [= <- <-]. split; [done|]. eexists. split; [reflexivity|].
      split; [constructor|cbn; lia]. }
  destruct (MODEL_TYPE2REQUEST_CONSTRUCTOR !! type s) as [ctor|]; cbn.
  2:{ intros [= <- <-]. split; [done|]. eexists. split; [reflexivity|].
      split; [constructor|cbn; lia]. }
  destruct (ctor s img key rp (outputs_lookup st)) as [req|e3].
  2:{ intros [= <- <-]. split; [done|]. eexists. split; [reflexivity|].
      split; [constructor|cbn; lia]. }
  destruct (infer_from_request model_id req m1) as [[raw|e4] m2]; cbn.
  2:{ intros [= <- <-]. split; [done|]. cbn. eexists. split.
      - rewrite <- app_assoc. reflexivity.
      - split; [repeat constructor|cbn; lia]. }
  destruct (serialise raw) as [sv|e5]; cbn.
  2:{ intros [= <- <-]. split; [done|]. cbn. eexists. split.
      - rewrite <- app_assoc. reflexivity.
      - split; [repeat constructor|cbn; lia]. }
  intros [= <- <-]. split; [done|]. cbn. eexists. split.
  - rewrite <- app_assoc. reflexivity.
  - split; [repeat constructor|cbn; lia].
Qed.

Lemma run_ocr_model_step_outcome s rp key st r st' :
  run_ocr_model_step s rp key st = (r, st') ->
  (forall e, r = Raise e -> outputs_lookup st' = outputs_lookup st) /\
  exists cs, calls st' = calls st ++ cs /\ registered_before_inference cs.
Proof.
  unfold run_ocr_model_step. step_exec.
  destruct (get_image s rp (outputs_lookup st)) as [img|e0].
  2:{ intros [= <- <-]. split; [done|]. exists [].
      rewrite app_nil_r. split; [done|constructor]. }
  destruct (ocr_loop key (as_batch img) [] st) as [[out|e1] st1] eqn:Hloop;
    apply ocr_loop_outcome in Hloop as (Hol & cs & Hcs & Hshape).
  - intros [= <- <-]. split; [done|]. cbn. eauto.
  - intros [= <- <-]. split; [done|]. eauto.
Qed.

(** X7.  A model step that raises stores nothing: whatever the failure and
    however many images of an OCR batch were already processed, the lookup
    is left as it was. *)
Theorem failed_step_stores_nothing
    (s : step) (rp : gmap string value) (key : value) (st st' : state)
    (e : exn) :
  run_roboflow_model_step s rp key st = (Raise e, st') \/
  run_ocr_model_step s rp key st = (Raise e, st') ->
  outputs_lookup st' = outputs_lookup st.
Proof.
  intros [Hrun|Hrun].
  - apply run_roboflow_model_step_outcome in Hrun as [Hol _]. by eapply Hol.
  - apply run_ocr_model_step_outcome in Hrun as [Hol _]. by eapply Hol.
Qed.

(** X8.  Whatever its outcome, a model step only adds calls to the record of
    the model manager, and every inference call it adds comes right after
    the registration of the model it is made on; [run_roboflow_model_step]
    adds at most one registration and one inference call. *)
Theorem model_registered_before_inference
    (s : step) (rp : gmap string value) (key : value) (st st' : state)
    (r : result (option string)) :
  (run_roboflow_model_step s rp key st = (r, st') ->
   exists cs, calls st' = calls st ++ cs /\
              registered_before_inference cs /\ length cs <= 2) /\
  (run_ocr_model_step s rp key st = (r, st') ->
   exists cs, calls st' = calls st ++ cs /\ registered_before_inference cs).
Proof.
  split; intros Hrun.
  - by apply run_roboflow_model_step_outcome in Hrun as [_ Hcs].
  - by apply run_ocr_model_step_outcome in Hrun as [_ Hcs].
Qed.

End StepOutcomes.

Lemma string_length_append (a b : string) :
  String.length (a +:+ b) = String.length a + String.length b.
Proof. induction a as [|c a IH]; [done|]. exact (f_equal S IH). Qed.

Lemma version_field_not_api_key (core_model : string) :
  core_model +:+ "_version_id" <> "api_key".
Proof.
  intros Heq. apply (f_equal String.length) in Heq.
  rewrite string_length_append in Heq. cbn in Heq. lia.
Qed.

Lemma request_getattr_setattr_ne (r : request) (a b : string) (v : value) :
  a <> b ->
  request_getattr (request_setattr r a v) b = request_getattr r b.
Proof.
  intros Hab. unfold request_getattr, request_setattr. cbn.
  by rewrite lookup_insert_ne.
Qed.

Lemma request_getattr_setattr (r : request) (a : string) (v : value) :
  request_getattr (request_setattr r a v) a = Ok v.
Proof.
  unfold request_getattr, request_setattr. cbn. by rewrite lookup_insert_eq.
Qed.

Section StepEffects.
Context {G : SelectorGrammar} {C : Collaborators}.

#[local] Arguments MODEL_TYPE2REQUEST_CONSTRUCTOR : simpl never.
#[local] Arguments serialise : simpl never.
#[local] Arguments resolve : simpl never.
#[local] Arguments get_image : simpl never.
#[local] Arguments lookup : simpl never.
#[local] Arguments insert : simpl never.
#[local] Arguments request_getattr : simpl never.
#[local] Arguments request_setattr : simpl never.
#[local] Arguments truthy : simpl never.

Ltac step_exec :=
  unfold mbind, exec_bind, mret, exec_ret, reading, call_add_model,
    call_infer_from_request, setitem, dict_getitem.

(** X9.  [run_roboflow_model_step] registers the model before it looks for the
    image: a model identifier that does not resolve stops the step with the
    state untouched, while an image that cannot be found stops it after the
    manager was asked to load the model, without any inference call. *)
Theorem model_registered_before_image_resolved
    (s : step) (rp : gmap string value) (key : value) (st : state) :
  (forall e : exn,
     resolve rp (outputs_lookup st) s "model_id" = Raise e ->
     run_roboflow_model_step s rp key st = (Raise e, st)) /\
  (forall (model_id : value) (m1 : manager) (e : exn),
     resolve rp (outputs_lookup st) s "model_id" = Ok model_id ->
     add_model model_id key (model_manager st) = (Ok tt, m1) ->
     get_image s rp (outputs_lookup st) = Raise e ->
     run_roboflow_model_step s rp key st
     = (Raise e,
        {| outputs_lookup := outputs_lookup st;
           model_manager := m1;
           calls := calls st ++ [AddModel model_id key] |})).
Proof.
  split.
  - intros e Hid. unfold run_roboflow_model_step. step_exec. by rewrite Hid.
  - intros model_id m1 e Hid Hadd Himg.
    unfold run_roboflow_model_step. step_exec. cbn.
    rewrite Hid, Hadd. cbn. by rewrite Himg.
Qed.

(** X10.  An OCR step whose image resolves to the empty list makes no call on
    the model manager and stores the empty list. *)
Theorem run_ocr_model_step_empty_batch
    (s : step) (rp : gmap string value) (key : value) (st : state) :
  get_image s rp (outputs_lookup st) = Ok (VList []) ->
  run_ocr_model_step s rp key st
  = (Ok None,
     {| outputs_lookup :=
          <[construct_step_selector (name s) := VList []]> (outputs_lookup st);
        model_manager := model_manager st;
        calls := calls st |}).
Proof.
  intros Himg. unfold run_ocr_model_step. step_exec. by rewrite Himg.
Qed.

(** X11.  [load_core_model] registers the model [<core_model>/<version>], the
    version being read from the field [<core_model>_version_id] of the
    request.  With a key that counts as true the request is given that key
    and the model is registered with it; with a key that counts as false
    ([None], the empty string) the request is left as it is and the model is
    registered with the key the request already carries.  A request without
    the version field stops the function before any call on the manager. *)
Theorem load_core_model_registers_with_effective_key
    (req : request) (core_model : string) (key : value) (st : state) :
  (forall (version : value) (m1 : manager),
     let model_id := core_model +:+ "/" +:+ format version in
     truthy key = true ->
     request_getattr req (core_model +:+ "_version_id") = Ok version ->
     add_model (VStr model_id) key (model_manager st) = (Ok tt, m1) ->
     load_core_model req core_model key st
     = (Ok (model_id, request_setattr req "api_key" key),
        {| outputs_lookup := outputs_lookup st;
           model_manager := m1;
           calls := calls st ++ [AddModel (VStr model_id) key] |})) /\
  (forall (version rkey : value) (m1 : manager),
     let model_id := core_model +:+ "/" +:+ format version in
     truthy key = false ->
     request_getattr req (core_model +:+ "_version_id") = Ok version ->
     request_getattr req "api_key" = Ok rkey ->
     add_model (VStr model_id) rkey (model_manager st) = (Ok tt, m1) ->
     load_core_model req core_model key st
     = (Ok (model_id, req),
        {| outputs_lookup := outputs_lookup st;
           model_manager := m1;
           calls := calls st ++ [AddModel (VStr model_id) rkey] |})) /\
  (forall e : exn,
     request_getattr req (core_model +:+ "_version_id") = Raise e ->
     load_core_model req core_model key st = (Raise e, st)).
Proof.
  split; [|split].
  - intros version m1 model_id Hkey Hver Hadd. subst model_id.
    unfold load_core_model. step_exec. rewrite Hkey.
    rewrite (request_getattr_setattr_ne req "api_key" _ key
               (not_eq_sym (version_field_not_api_key core_model))).
    rewrite Hver, request_getattr_setattr. cbn. by rewrite Hadd.
  - intros version rkey m1 model_id Hkey Hver Hrkey Hadd. subst model_id.
    unfold load_core_model. step_exec. rewrite Hkey, Hver, Hrkey. cbn.
    by rewrite Hadd.
  - intros e Hver. unfold load_core_model. step_exec.
    destruct (truthy key).
    + rewrite (request_getattr_setattr_ne req "api_key" _ key
                 (not_eq_sym (version_field_not_api_key core_model))).
      by rewrite Hver.
    + by rewrite Hver.
Qed.

(** X12.  Every request constructor of [MODEL_TYPE2REQUEST_CONSTRUCTOR] builds
    its request from keyword arguments that begin with the API key as
    given, the resolved model identifier of the step and the image as
    given; every further keyword argument is the resolution of the step
    attribute of the same name. *)
Theorem registered_constructor_kwargs
    (t : string) (ctor : request_constructor) (s : step) (img key : value)
    (rp ol : gmap string value) (req : request) :
  MODEL_TYPE2REQUEST_CONSTRUCTOR !! t = Some ctor ->
  ctor s img key rp ol = Ok req ->
  exists (cls : string) (kwargs : list (string * value)) (model_id : value),
    resolve rp ol s "model_id" = Ok model_id /\
    new_request cls kwargs = Ok req /\
    take 3 kwargs
    = [("api_key", key); ("model_id", model_id); ("image", img)] /\
    Forall (fun kv => resolve rp ol s kv.1 = Ok kv.2) (drop 3 kwargs).
Proof.
  intros Hctor Hreq.
  unfold MODEL_TYPE2REQUEST_CONSTRUCTOR in Hctor.
  apply elem_of_list_to_map_2 in Hctor.
  repeat (apply elem_of_cons in Hctor as [Hctor|Hctor];
          [injection Hctor as -> ->|]);
    [..|by apply elem_of_nil in Hctor];
    revert Hreq;
    unfold construct_classification_request,
      construct_object_detection_request,
      construct_instance_segmentation_request,
      construct_keypoints_detection_request;
    cbv zeta; unfold mbind, result_bind;
    repeat match goal with
           | |- context [resolve rp ol s ?a] =>
               destruct (resolve rp ol s a) eqn:?; [|done]
           end;
    intros Hreq; eexists _, _, _;
    (split; [reflexivity|]); (split; [exact Hreq|]);
    (split; [reflexivity|]); cbn [drop]; repeat constructor; assumption.
Qed.

End StepEffects.

Lemma mapM_getitem_records_Raise (f : string) (ds : list (gmap string value))
    (e : exn) :
  mapM (fun r => getitem r f) (VDict <$> ds) = Raise e -> e = KeyError f.
Proof.
  induction ds as [|d ds IH]; cbn; [done|].
  unfold mbind, result_bind, dict_getitem.
  destruct (d !! f) as [x|]; [|by intros [= <-]].
  destruct (mapM (fun r => getitem r f) (VDict <$> ds)) as [vs|e']; [done|].
  intros [= <-]. by apply IH.
Qed.

Section StepComposition.
Context {G : SelectorGrammar} {L : SelectorLaws G} {C : Collaborators}.

Lemma model_step_stored_shape s rp key st st' r :
  run_roboflow_model_step s rp key st = (Ok r, st') \/
  run_ocr_model_step s rp key st = (Ok r, st') ->
  exists v : value,
    outputs_lookup st' !! construct_step_selector (name s) = Some v /\
    record_or_records v.
Proof.
  intros [Hrun|Hrun].
  - apply run_roboflow_model_step_inv in Hrun
      as (model_id & req & raw & m2 & sv & _ & Hsv & _ & ->).
    exists (unwrap_single sv). split; [cbn; apply lookup_insert_eq|].
    apply serialise_Ok in Hsv as [(d & _ & ->)|(ds & _ & ->)].
    + left. by exists d.
    + destruct ds as [|d [|d' ds]]; cbn.
      * right. by exists [].
      * left. by exists d.
      * right. by exists (d :: d' :: ds).
  - apply run_ocr_model_step_inv in Hrun as (img & cs & ds & _ & _ & _ & ->).
    exists (unwrap_single_list (VDict <$> ds)).
    split; [cbn; apply lookup_insert_eq|].
    destruct ds as [|d [|d' ds]]; cbn.
    + right. by exists [].
    + left. by exists d.
    + right. by exists (d :: d' :: ds).
Qed.

(** X13.  What a model step stores can be read back by a step-output selector on
    that step: the stored value is a record, or a list of records that has
    not exactly one element (a one-element result is stored unwrapped);
    [resolve_parameter] answers the field of the record, or the list of the
    fields of the records, and the only error it can raise there is the key
    error carrying the field. *)
Theorem stored_result_resolves
    (s : step) (rp : gmap string value) (key : value) (st st' : state)
    (r : option string) (sel : value) (f : string) (rp' : gmap string value) :
  run_roboflow_model_step s rp key st = (Ok r, st') \/
  run_ocr_model_step s rp key st = (Ok r, st') ->
  is_step_output_selector sel = true ->
  get_step_selector_from_its_output sel = Ok (construct_step_selector (name s)) ->
  get_last_selector_chunk sel = Ok f ->
  exists v : value,
    outputs_lookup st' !! construct_step_selector (name s) = Some v /\
    record_or_records v /\
    (forall d, v = VDict d ->
       resolve_parameter sel rp' (outputs_lookup st') = dict_getitem d f) /\
    (forall es, v = VList es ->
       resolve_parameter sel rp' (outputs_lookup st')
       = VList <$> mapM (fun e => getitem e f) es) /\
    (forall e, resolve_parameter sel rp' (outputs_lookup st') = Raise e ->
       e = KeyError f).
Proof.
  intros Hrun Hso Hk Hf.
  destruct (model_step_stored_shape _ _ _ _ _ _ Hrun) as (v & Hv & Hshape).
  exists v. split; [done|]. split; [done|].
  pose proof (resolve_parameter_step_output sel _ rp' (outputs_lookup st')
                Hso Hk) as Hres.
  rewrite Hf in Hres. unfold dict_getitem at 1 in Hres. rewrite Hv in Hres.
  cbn in Hres. split; [|split].
  - intros d ->. exact Hres.
  - intros es ->. exact Hres.
  - intros e He. rewrite Hres in He.
    destruct Hshape as [(d & ->)|(ds & -> & _)].
    + cbn in He. unfold dict_getitem in He.
      destruct (d !! f); [done|]. by injection He as <-.
    + destruct (mapM (fun e => getitem e f) (VDict <$> ds)) as [vs|e']
        eqn:Hmap; [done|].
      cbn in He. injection He as <-.
      by apply mapM_getitem_records_Raise in Hmap.
Qed.

End StepComposition.

Section StepFrame.
Context {G : SelectorGrammar} {C : Collaborators}.

Lemma get_image_insert_other (s : step) (k' : string) (x : value)
    (rp ol : gmap string value) :
  (forall k : string,
     get_step_selector_from_its_output (image s) = Ok k -> k <> k') ->
  get_image s rp (<[k' := x]> ol) = get_image s rp ol.
Proof.
  intros Hother. unfold get_image.
  destruct (is_input_selector (image s)); [done|].
  destruct (is_step_output_selector (image s)); [|done].
  destruct (get_step_selector_from_its_output (image s)) as [k|e] eqn:Hk;
    [|done].
  cbn. unfold dict_getitem.
  by rewrite (lookup_insert_ne ol k' k x (not_eq_sym (Hother k eq_refl))).
Qed.

(** X4.  Executing a model step, whatever its outcome, does not change what
    [resolve_parameter] and [get_image] answer for values that do not refer
    to the output of that step. *)
Theorem step_preserves_other_resolutions
    (s : step) (rp : gmap string value) (key : value) (st st' : state)
    (r : result (option string)) :
  run_roboflow_model_step s rp key st = (r, st') \/
  run_ocr_model_step s rp key st = (r, st') ->
  (forall (v : value) (rp' : gmap string value),
     (forall k, get_step_selector_from_its_output v = Ok k ->
                k <> construct_step_selector (name s)) ->
     resolve_parameter v rp' (outputs_lookup st')
     = resolve_parameter v rp' (outputs_lookup st)) /\
  (forall (s' : step) (rp' : gmap string value),
     (forall k, get_step_selector_from_its_output (image s') = Ok k ->
                k <> construct_step_selector (name s)) ->
     get_image s' rp' (outputs_lookup st')
     = get_image s' rp' (outputs_lookup st)).
Proof.
  intros Hrun.
  assert (Hol : outputs_lookup st' = outputs_lookup st \/
                exists x, outputs_lookup st'
                          = <[construct_step_selector (name s) := x]>
                              (outputs_lookup st)).
  { destruct r as [next|e].
    - right. destruct Hrun as [Hrun|Hrun].
      + apply run_roboflow_model_step_inv in Hrun
          as (model_id & req & raw & m2 & sv & _ & _ & _ & ->). by eexists.
      + apply run_ocr_model_step_inv in Hrun
          as (img & cs & ds & _ & _ & _ & ->). by eexists.
    - left. destruct Hrun as [Hrun|Hrun].
      + apply run_roboflow_model_step_outcome in Hrun as [Hsame _].
        by eapply Hsame.
      + apply run_ocr_model_step_outcome in Hrun as [Hsame _].
        by eapply Hsame. }
  split.
  - intros v rp' Hother. destruct Hol as [->|[x ->]]; [done|].
    by apply resolve_parameter_ignores_other_entries.
  - intros s' rp' Hother. destruct Hol as [->|[x ->]]; [done|].
    by apply get_image_insert_other.
Qed.

End StepFrame.

Section ClassificationTypes.
Context {G : SelectorGrammar} {C : Collaborators}.

(** X14.  The two classification types share their request constructor: two
    steps that differ only in being tagged [ClassificationModel] and
    [MultiLabelClassificationModel] are executed alike. *)
Theorem classification_types_run_alike
    (s s' : step) (rp : gmap string value) (key : value) (st : state) :
  type s = "ClassificationModel" ->
  type s' = "MultiLabelClassificationModel" ->
  name s' = name s -> image s' = image s -> fields s' = fields s ->
  run_roboflow_model_step s' rp key st = run_roboflow_model_step s rp key st.
Proof.
  destruct s as [t n i fs], s' as [t' n' i' fs']. cbn.
  intros -> -> -> -> ->. reflexivity.
Qed.

End ClassificationTypes.

(** ** The further properties on examples *)

Import Scenarios.

Lemma input_selector_reads_runtime_parameters_witness :
  get_image ocr one_image ∅ = Ok (VStr "a.jpg") /\
  resolve_parameter (VStr "$inputs.image") ∅ one_record
  = Raise (KeyError "image") /\
  get_image ocr ∅ one_record = Raise (KeyError "image").
Proof.
  split.
  - apply (input_selector_reads_runtime_parameters (G := compiler_utils)
             (VStr "$inputs.image") "image" one_image ∅ eq_refl eq_refl);
      reflexivity.
  - destruct (input_selector_reads_runtime_parameters (G := compiler_utils)
                (VStr "$inputs.image") "image" ∅ one_record eq_refl eq_refl)
      as [_ Hunbound].
    destruct (Hunbound eq_refl) as [Hresolve Himage].
    split; [exact Hresolve|]. apply Himage. reflexivity.
Defined.

Lemma get_image_does_not_broadcast_witness :
  get_image reader ∅ one_record = Ok (VInt 7) /\
  get_image reader ∅ two_records = Raise TypeError /\
  exists vs, resolve_parameter (image reader) ∅ two_records = Ok (VList vs) /\
             length vs = 2.
Proof.
  destruct (get_image_does_not_broadcast (G := compiler_utils) reader
              "$steps.detection" "predictions" ∅ one_record
              eq_refl eq_refl eq_refl) as [Hrecord _].
  destruct (get_image_does_not_broadcast (G := compiler_utils) reader
              "$steps.detection" "predictions" ∅ two_records
              eq_refl eq_refl eq_refl) as [_ Hlist].
  split.
  - rewrite (Hrecord _ eq_refl). reflexivity.
  - destruct (Hlist _ eq_refl) as [Hraise Hbroadcast]. split; [exact Hraise|].
    apply (Hbroadcast [<["predictions" := VInt 1]> ∅;
                       <["predictions" := VInt 2]> ∅] eq_refl).
    repeat constructor; eexists; reflexivity.
Defined.

Lemma resolve_parameter_batch_all_or_nothing_witness :
  resolve_parameter (VStr "$steps.detection.predictions") ∅ ragged_records
  = Raise (KeyError "predictions").
Proof.
  destruct (resolve_parameter_batch_all_or_nothing (G := compiler_utils)
              (VStr "$steps.detection.predictions") "$steps.detection"
              "predictions" ∅ ragged_records eq_refl eq_refl eq_refl)
    as [_ Hfail].
  apply (Hfail [VDict (<["predictions" := VInt 1]> ∅)] (VDict ∅)
           [VDict (<["predictions" := VInt 3]> ∅)] [VInt 1]).
  - reflexivity.
  - repeat constructor.
  - reflexivity.
Defined.

Lemma failed_step_stores_nothing_witness :
  fst (run_roboflow_model_step (G := compiler_utils) (C := batched)
         unregistered one_image api_key detected)
  = Raise (KeyError "YoloWorldModel") /\
  outputs_lookup
    (snd (run_roboflow_model_step (G := compiler_utils) (C := batched)
            unregistered one_image api_key detected))
  = outputs_lookup detected.
Proof.
  split; [compute_eq|].
  apply (failed_step_stores_nothing (G := compiler_utils) (C := batched)
           unregistered one_image api_key detected _
           (KeyError "YoloWorldModel")).
  left. compute_eq.
Defined.

Lemma model_registered_before_inference_witness :
  exists cs,
    calls (snd (run_ocr_model_step (G := compiler_utils) (C := batched)
                  ocr two_images api_key detected))
    = calls detected ++ cs /\
    registered_before_inference cs.
Proof.
  apply (model_registered_before_inference (G := compiler_utils)
           (C := batched) ocr two_images api_key detected
           (snd (run_ocr_model_step (G := compiler_utils) (C := batched)
                   ocr two_images api_key detected))
           (Ok None)).
  compute_eq.
Defined.

Lemma model_registered_before_image_resolved_witness :
  run_roboflow_model_step (G := compiler_utils) (C := batched)
    unbound_model one_image api_key (start batched 0)
  = (Raise (KeyError "missing"), start batched 0) /\
  run_roboflow_model_step (G := compiler_utils) (C := batched)
    literal_detection one_image api_key (start batched 0)
  = (Raise (RuntimeError "Cannot find image"),
     snapshot batched ∅ 1 [AddModel (VStr "yolov8n/1") api_key]).
Proof.
  destruct (model_registered_before_image_resolved (G := compiler_utils)
              (C := batched) unbound_model one_image api_key
              (start batched 0)) as [Hmodel _].
  destruct (model_registered_before_image_resolved (G := compiler_utils)
              (C := batched) literal_detection one_image api_key
              (start batched 0)) as [_ Himage].
  split.
  - apply Hmodel. compute_eq.
  - apply (Himage (VStr "yolov8n/1") 1); [compute_eq|reflexivity|compute_eq].
Defined.

Lemma run_ocr_model_step_empty_batch_witness :
  run_ocr_model_step (G := compiler_utils) (C := batched)
    ocr no_images api_key (start batched 0)
  = (Ok None, snapshot batched (<["$steps.ocr" := VList []]> ∅) 0 []).
Proof.
  apply (run_ocr_model_step_empty_batch (G := compiler_utils) (C := batched)
           ocr no_images api_key (start batched 0)).
  compute_eq.
Defined.

Lemma load_core_model_registers_with_effective_key_witness :
  load_core_model (C := batched) bare_ocr_request "doctr" api_key
    (start batched 0)
  = (Ok ("doctr/default", ocr_request (VStr "a.jpg")),
     snapshot batched ∅ 1 [AddModel (VStr "doctr/default") api_key]) /\
  load_core_model (C := batched) bare_ocr_request "doctr" (VStr "")
    (start batched 0)
  = (Ok ("doctr/default", bare_ocr_request),
     snapshot batched ∅ 1 [AddModel (VStr "doctr/default") VNone]) /\
  load_core_model (C := batched) bare_ocr_request "clip" api_key
    (start batched 0)
  = (Raise (AttributeError "clip_version_id"), start batched 0).
Proof.
  destruct (load_core_model_registers_with_effective_key (C := batched)
              bare_ocr_request "doctr" api_key (start batched 0))
    as (Hkey & _ & _).
  destruct (load_core_model_registers_with_effective_key (C := batched)
              bare_ocr_request "doctr" (VStr "") (start batched 0))
    as (_ & Hnokey & _).
  destruct (load_core_model_registers_with_effective_key (C := batched)
              bare_ocr_request "clip" api_key (start batched 0))
    as (_ & _ & Hmissing).
  split; [|split].
  - rewrite (Hkey (VStr "default") 1 eq_refl eq_refl eq_refl). compute_eq.
  - exact (Hnokey (VStr "default") VNone 1 eq_refl eq_refl eq_refl eq_refl).
  - apply Hmissing. reflexivity.
Defined.

Lemma registered_constructor_kwargs_witness :
  exists (cls : string) (kwargs : list (string * value)) (model_id : value),
    resolve (G := compiler_utils) one_image ∅ detection "model_id"
    = Ok model_id /\
    new_request (Collaborators := batched) cls kwargs
    = Ok (detection_request (VStr "a.jpg")) /\
    take 3 kwargs
    = [("api_key", api_key); ("model_id", model_id); ("image", VStr "a.jpg")] /\
    Forall (fun kv => resolve (G := compiler_utils) one_image ∅ detection kv.1
                      = Ok kv.2) (drop 3 kwargs).
Proof.
  apply (registered_constructor_kwargs (G := compiler_utils) (C := batched)
           "ObjectDetectionModel"
           (construct_object_detection_request (G := compiler_utils)
              (C := batched))
           detection (VStr "a.jpg") api_key one_image ∅
           (detection_request (VStr "a.jpg"))); compute_eq.
Defined.

Lemma stored_result_resolves_witness :
  resolve_parameter (VStr "$steps.detection.source") ∅
    (outputs_lookup detected)
  = Ok (VStr "a.jpg").
Proof.
  assert (Hrun : run_roboflow_model_step (G := compiler_utils) (C := batched)
                   detection one_image api_key (start batched 0)
                 = (Ok None, detected)) by compute_eq.
  destruct (stored_result_resolves (G := compiler_utils) (C := batched)
              detection one_image api_key (start batched 0) detected None
              (VStr "$steps.detection.source") "source" ∅
              (or_introl Hrun) eq_refl eq_refl eq_refl)
    as (v & Hv & _ & Hrecord & _ & _).
  assert (Hstored : outputs_lookup detected
                    !! construct_step_selector (name detection)
                    = Some (VDict (response_fields (VStr "a.jpg"))))
    by compute_eq.
  rewrite Hstored in Hv. injection Hv as <-.
  rewrite (Hrecord _ eq_refl). reflexivity.
Defined.

Lemma step_preserves_other_resolutions_witness :
  resolve_parameter (VStr "$steps.detection.source") ∅
    (outputs_lookup
       (snd (run_ocr_model_step (G := compiler_utils) (C := batched)
               ocr one_image api_key detected)))
  = resolve_parameter (VStr "$steps.detection.source") ∅
      (outputs_lookup detected).
Proof.
  destruct (step_preserves_other_resolutions (G := compiler_utils)
              (C := batched) ocr one_image api_key detected
              (snd (run_ocr_model_step (G := compiler_utils) (C := batched)
                      ocr one_image api_key detected))
              (Ok None)) as [Hresolve _].
  - right. compute_eq.
  - apply Hresolve. intros k [= <-]. discriminate.
Defined.

Lemma classification_types_run_alike_witness :
  run_roboflow_model_step (G := compiler_utils) (C := batched)
    (classifier "MultiLabelClassificationModel") one_image api_key
    (start batched 0)
  = run_roboflow_model_step (G := compiler_utils) (C := batched)
      (classifier "ClassificationModel") one_image api_key (start batched 0).
Proof.
  apply (classification_types_run_alike (G := compiler_utils) (C := batched)
           (classifier "ClassificationModel")
           (classifier "MultiLabelClassificationModel"));
    reflexivity.
Defined.
